(** * ExploratoryDataAnalysis: the dataset inspector of [EDAModule.py]

    A shallow embedding of the class [ExploratoryDataAnalysis] together with
    the parts of pandas, matplotlib and the Python runtime its methods call.

    - [Py]      exceptions, their class hierarchy, [float(str)] acceptance;
    - [Pandas]  data frames: dtypes, cells, columns, and the methods used;
    - [Pyplot]  [plt.subplots] with its default [squeeze=True];
    - [EDA]     the class itself, as a state-and-exception monad;
    - [Spec]    the words of the specification, as definitions;
    - [Sample]  frames and runtimes to run the methods on;
    - [Props]   further vocabulary for what a call returns and touches.

    Floating-point results (describe, the correlation coefficients) and the
    pixels of a chart are not computed; what is modelled of them is which
    columns take part, whether the call raises, and what is left behind. *)

From Stdlib Require Import ZArith Ascii String List Lia.
From stdpp Require Import base option list gmap strings.

Open Scope nat_scope.

(* ===================================================================== *)
(** ** Python runtime *)
(* ===================================================================== *)

Module Py.

(** The built-in exception classes that can reach the code. *)
Inductive exn_class :=
| BaseException | Exception | KeyboardInterrupt | SystemExit
| ImportError | ModuleNotFoundError
| AttributeError | LookupError | IndexError | KeyError
| ValueError | TypeError | OSError | FileNotFoundError.

#[global] Instance exn_class_eq_dec : EqDecision exn_class.
Proof. solve_decision. Defined.

(** The direct base class, as in the Python exception hierarchy. *)
Definition base (c : exn_class) : option exn_class :=
  match c with
  | BaseException => None
  | Exception | KeyboardInterrupt | SystemExit => Some BaseException
  | ImportError | AttributeError | LookupError
  | ValueError | TypeError | OSError => Some Exception
  | ModuleNotFoundError => Some ImportError
  | IndexError | KeyError => Some LookupError
  | FileNotFoundError => Some OSError
  end.

(** [issubclass c d]; the hierarchy is three levels deep below
    [BaseException], so four steps reach the root from anywhere. *)
Fixpoint issubclass_fuel (n : nat) (c d : exn_class) : bool :=
  if decide (c = d) then true
  else match n, base c with
       | S n', Some b => issubclass_fuel n' b d
       | _, _ => false
       end.

Definition issubclass : exn_class -> exn_class -> bool := issubclass_fuel 4.

(** A raised exception: its class and [str(e)]. *)
Record exn := Exn { cls : exn_class; str : string }.

Definition isinstance (e : exn) (c : exn_class) : bool := issubclass (cls e) c.

(** *** [float(s)] on a [str]

    Whether Python's [float] accepts a string (the value is not needed):
    surrounding whitespace is stripped, then an optional sign, then one of
    inf, infinity, nan (any case) or a decimal literal
      number   ::= [digitpart] "." digitpart | digitpart ["."]
      exponent ::= ("e" | "E") [sign] digitpart
    with digitpart ::= digit (["_"] digit)*.  ASCII strings only. *)

Definition is_digit (c : ascii) : bool :=
  let n := nat_of_ascii c in (48 <=? n) && (n <=? 57).

Definition is_space (c : ascii) : bool :=
  let n := nat_of_ascii c in
  ((9 <=? n) && (n <=? 13)) || ((28 <=? n) && (n <=? 32)).

Definition lower (c : ascii) : ascii :=
  let n := nat_of_ascii c in
  if (65 <=? n) && (n <=? 90) then ascii_of_nat (n + 32) else c.

Fixpoint lstrip (l : list ascii) : list ascii :=
  match l with
  | c :: l' => if is_space c then lstrip l' else l
  | [] => []
  end.

Definition strip (l : list ascii) : list ascii :=
  rev (lstrip (rev (lstrip l))).

Definition drop_sign (l : list ascii) : list ascii :=
  match l with
  | c :: l' => if decide (c = "+"%char \/ c = "-"%char) then l' else l
  | [] => []
  end.

(** After a first digit: [(["_"] digit)*]. *)
Fixpoint eat_digits_tail (l : list ascii) : list ascii :=
  match l with
  | c :: l' =>
      if is_digit c then eat_digits_tail l'
      else if decide (c = "_"%char) then
        match l' with
        | d :: l'' => if is_digit d then eat_digits_tail l'' else l
        | [] => l
        end
      else l
  | [] => []
  end.

Definition eat_digitpart (l : list ascii) : option (list ascii) :=
  match l with
  | c :: l' => if is_digit c then Some (eat_digits_tail l') else None
  | [] => None
  end.

Definition eat_number (l : list ascii) : option (list ascii) :=
  match eat_digitpart l with
  | Some r =>
      match r with
      | c :: r' =>
          if decide (c = "."%char)
          then Some (default r' (eat_digitpart r'))
          else Some r
      | [] => Some []
      end
  | None =>
      match l with
      | c :: r' => if decide (c = "."%char) then eat_digitpart r' else None
      | [] => None
      end
  end.

Definition eat_exponent (l : list ascii) : option (list ascii) :=
  match l with
  | c :: r =>
      if decide (lower c = "e"%char) then eat_digitpart (drop_sign r)
      else Some l
  | [] => Some []
  end.

Definition float_accepts (s : string) : bool :=
  let body := drop_sign (strip (list_ascii_of_string s)) in
  let low := string_of_list_ascii (map lower body) in
  if decide (low = "inf" \/ low = "infinity" \/ low = "nan")%string then true
  else match eat_number body ≫= eat_exponent with
       | Some [] => true
       | _ => false
       end.

End Py.

(* ===================================================================== *)
(** ** pandas *)
(* ===================================================================== *)

Module Pandas.

(** Column dtypes (numpy's fixed-width numbers, bool, object, and pandas'
    categorical; temporal dtypes carry their tag only). *)
Inductive Dtype :=
| int8 | int16 | int32 | int64
| uint8 | uint16 | uint32 | uint64
| float16 | float32 | float64
| complex64 | complex128
| bool_ | object_ | category
| datetime64 | timedelta64.

#[global] Instance Dtype_eq_dec : EqDecision Dtype.
Proof. solve_decision. Defined.

(** A binary float, as far as a cell needs it: not-a-number, an infinity,
    or the finite value [m * 2^e]. *)
Inductive pyfloat :=
| FNaN
| FInf (negative : bool)
| FFin (m e : Z).

(** The value in a cell (timestamps and [pd.NA] are left out). *)
Inductive scalar :=
| SInt (z : Z)
| SFloat (f : pyfloat)
| SBool (b : bool)
| SStr (s : string)
| SNone.

(** A column: label, dtype, one value per row. *)
Record Series := mkSeries {
  name : string;
  dtype : Dtype;
  values : list scalar
}.

(** A frame: the row index and the columns, in order.  Column labels may
    repeat, as pandas allows. *)
Record DataFrame := mkFrame {
  index : list scalar;
  columns : list Series
}.

(** Every column holds one value per index entry. *)
Definition wf (df : DataFrame) : Prop :=
  Forall (fun c => length (values c) = length (index df)) (columns df).

(** [df.shape]: [(len(self.index), len(self.columns))]. *)
Definition shape (df : DataFrame) : nat * nat :=
  (length (index df), length (columns df)).

(** [df.size]: the product of the entries of [df.shape]. *)
Definition size (df : DataFrame) : nat :=
  let '(r, c) := shape df in r * c.

(** [df.columns] as a sequence of labels. *)
Definition labels (df : DataFrame) : list string :=
  map name (columns df).

(** [df.dtypes]: label to dtype, in column order. *)
Definition dtypes (df : DataFrame) : list (string * Dtype) :=
  map (fun c => (name c, dtype c)) (columns df).

(** [df.head(n)] for [n >= 0], that is [df.iloc[:n]]. *)
Definition head (n : nat) (df : DataFrame) : DataFrame :=
  {| index := take n (index df);
     columns := map (fun c => {| name := name c; dtype := dtype c;
                                 values := take n (values c) |})
                    (columns df) |}.

(** [pd.isna] on one cell: [None] and NaN are missing; empty strings and
    infinities are not. *)
Definition isna (v : scalar) : bool :=
  match v with
  | SNone | SFloat FNaN => true
  | _ => false
  end.

(** [df.isnull()]: the same labels over boolean cells. *)
Definition isnull (df : DataFrame) : list (string * list bool) :=
  map (fun c => (name c, map isna (values c))) (columns df).

(** [.sum()] of a boolean frame, down each column ([True] counts 1). *)
Definition sum (bf : list (string * list bool)) : list (string * nat) :=
  map (fun '(lbl, bs) => (lbl, sum_list (map Nat.b2n bs))) bf.

(** [df.select_dtypes(include=...)]: the columns whose dtype is one of the
    listed ones, in order.  The names the class passes ('float64', 'int64',
    'object', 'category') each denote exactly one dtype. *)
Definition select_dtypes (include : list Dtype) (df : DataFrame) : DataFrame :=
  {| index := index df;
     columns := filter (fun c => dtype c ∈ include) (columns df) |}.

(** [df[label]]: every column carrying that label. *)
Definition getitem (df : DataFrame) (label : string) : list Series :=
  filter (fun c => name c = label) (columns df).

(** Conversion of a cell to [float], as [to_numpy(dtype=float)] does it:
    numbers and booleans convert, [None] becomes NaN, a string goes
    through [float(s)]. *)
Definition cell_to_float (v : scalar) : option Py.exn :=
  match v with
  | SStr s =>
      if Py.float_accepts s then None
      else Some (Py.Exn Py.ValueError
                   ("could not convert string to float: '" +:+ s +:+ "'"))
  | _ => None
  end.

(** The first failure in a sequence of checks, if any. *)
Fixpoint first_error (checks : list (option Py.exn)) : option Py.exn :=
  match checks with
  | [] => None
  | Some e :: _ => Some e
  | None :: rest => first_error rest
  end.

Definition cells_to_float (vs : list scalar) : option Py.exn :=
  first_error (map cell_to_float vs).

(** [df._get_numeric_data()]: numeric and boolean columns. *)
Definition is_number_or_bool (d : Dtype) : bool :=
  match d with
  | object_ | category | datetime64 | timedelta64 => false
  | _ => true
  end.

Definition get_numeric_data (df : DataFrame) : DataFrame :=
  {| index := index df;
     columns := filter (fun c => is_number_or_bool (dtype c) = true)
                       (columns df) |}.

(** [df.corr(method='pearson', min_periods=1, numeric_only=False)]
    (pandas 2.0 and later, where [numeric_only] defaults to [False]):
    the frame, or only its numeric part, is converted to a float matrix,
    which raises on a cell that does not convert; the result is indexed by
    the labels of the columns that took part.  The coefficients are
    floating-point and are not computed here. *)
Definition corr (numeric_only : bool) (df : DataFrame)
  : Py.exn + list string :=
  let data := if numeric_only then get_numeric_data df else df in
  match first_error (map (fun c => cells_to_float (values c))
                          (columns data)) with
  | Some e => inl e
  | None => inr (labels data)
  end.

(** What [to_csv(path, index=False)] writes: a header of labels and the
    rows of cells, without the index. *)
Record csv_table := mkCsv {
  header : list string;
  rows : list (list (option scalar))
}.

Definition row (df : DataFrame) (i : nat) : list (option scalar) :=
  map (fun c => values c !! i) (columns df).

Definition to_csv (df : DataFrame) : csv_table :=
  {| header := labels df;
     rows := map (row df) (seq 0 (length (index df))) |}.

End Pandas.

(* ===================================================================== *)
(** ** matplotlib.pyplot *)
(* ===================================================================== *)

Module Pyplot.

(** What a plotting call draws on an axes. *)
Inductive chart :=
| Box (variable : string)
| Hist (variable : string) (bins : Z)
| Bar (variable : string)
| Heatmap (labels : list string).

(** One subplot: what was drawn, its title, and whether its axis is on
    ([axis('off')] hides the cell). *)
Record axes := mkAxes {
  drawn : option chart;
  title : option string;
  axis_on : bool
}.

Definition blank : axes :=
  {| drawn := None; title := None; axis_on := true |}.

(** A figure: its size in inches, its grid of subplots by row, and whether
    [plt.show()] has displayed it. *)
Record figure := mkFigure {
  figsize : nat * nat;
  grid : list (list axes);
  shown : bool
}.

(** The array of axes [plt.subplots] returns.  With the default
    [squeeze=True] extra dimensions are squeezed out: a single Axes for a
    1x1 grid, a one-dimensional array for 1xM or Nx1, and a two-dimensional
    array only when both N > 1 and M > 1. *)
Inductive axes_array :=
| Single
| Array1 (n : nat)
| Array2 (nrows ncols : nat).

Definition squeeze (nrows ncols : nat) : axes_array :=
  if decide (nrows = 1 /\ ncols = 1) then Single
  else if decide (nrows = 1) then Array1 ncols
  else if decide (ncols = 1) then Array1 nrows
  else Array2 nrows ncols.

(** [axs[i, j]] with non-negative [i], [j]: the position of the axes in
    the grid, or the error numpy (or the Axes object) raises. *)
Definition getitem2 (axs : axes_array) (i j : nat) : Py.exn + nat * nat :=
  match axs with
  | Array2 r c =>
      if decide (i < r /\ j < c) then inr (i, j)
      else inl (Py.Exn Py.IndexError "index out of bounds")
  | Array1 _ =>
      inl (Py.Exn Py.IndexError
             "too many indices for array: array is 1-dimensional, but 2 were indexed")
  | Single =>
      inl (Py.Exn Py.TypeError "'Axes' object is not subscriptable")
  end.

Definition new_grid (nrows ncols : nat) : list (list axes) :=
  replicate nrows (replicate ncols blank).

(** Apply a change to the subplot at a position. *)
Definition on_axes (f : axes -> axes) (pos : nat * nat)
    (g : list (list axes)) : list (list axes) :=
  alter (alter f (snd pos)) (fst pos) g.

Definition draw (c : chart) (a : axes) : axes :=
  {| drawn := Some c; title := title a; axis_on := axis_on a |}.

Definition with_title (t : string) (a : axes) : axes :=
  {| drawn := drawn a; title := Some t; axis_on := axis_on a |}.

Definition axis_off (a : axes) : axes :=
  {| drawn := drawn a; title := title a; axis_on := false |}.

End Pyplot.

(* ===================================================================== *)
(** ** The class ExploratoryDataAnalysis *)
(* ===================================================================== *)

Module EDA.

Import Py.

(** What a method can see and change: the frame [self.dataset] refers to
    (owned by the caller), the attribute [self.description] (absent until
    set), the files of the working directory, the lines printed so far, and
    the figures created so far, newest first. *)
Record state := mkState {
  dataset : Pandas.DataFrame;
  description : option string;
  files : gmap string Pandas.csv_table;
  stdout : list string;
  figures : list Pyplot.figure
}.

(** [__init__]: binds the frame; no other attribute exists yet. *)
Definition init (df : Pandas.DataFrame)
    (fs : gmap string Pandas.csv_table) (out : list string)
    (figs : list Pyplot.figure) : state :=
  {| dataset := df; description := None;
     files := fs; stdout := out; figures := figs |}.

(** An optional library as the interpreter finds it during one call: the
    outcome of the first import, of [subprocess.run(["pip", "install", ..])]
    (which raises only when pip cannot be started, not when the install
    fails), and of the import after it ([from sweetviz import sv] for
    Sweetviz).  [None] is success. *)
Record library := mkLibrary {
  first_import : option exn;
  pip_install : option exn;
  second_import : option exn
}.

(** The answers of everything outside the class whose result is not
    computed here.  All of them read their argument and leave it alone. *)
Record runtime := mkRuntime {
  describe : Pandas.DataFrame -> exn + Pandas.DataFrame;
  nunique : Pandas.DataFrame -> list (string * nat);
  value_counts_repr : list Pandas.Series -> string;
  sweetviz : library;
  sv_analyze : Pandas.DataFrame -> option exn;
  show_notebook : option exn;
  autoviz : library;
  csv_write : option exn;
  AutoViz_Class : option exn;
  AutoViz : option Pandas.csv_table -> option exn
}.

(** *** The monad: state, and a result or a raised exception *)

Inductive outcome (A : Type) :=
| Return (a : A)
| Raise (e : exn).
Arguments Return {A} a.
Arguments Raise {A} e.

Definition M (A : Type) : Type := state -> outcome A * state.

#[global] Instance M_ret : MRet M := fun A a s => (Return a, s).

#[global] Instance M_bind : MBind M := fun A B f m s =>
  match m s with
  | (Return a, s') => f a s'
  | (Raise e, s') => (Raise e, s')
  end.

Definition raise {A} (e : exn) : M A := fun s => (Raise e, s).

(** [try: body  except c as e: handler e]. *)
Definition try_except {A} (body : M A) (c : exn_class)
    (handler : exn -> M A) : M A := fun s =>
  match body s with
  | (Raise e, s') => if isinstance e c then handler e s' else (Raise e, s')
  | r => r
  end.

(** A call whose only modelled effect is that it may raise. *)
Definition call (r : option exn) : M unit :=
  match r with
  | Some e => raise e
  | None => mret tt
  end.

Definition lift {A} (r : exn + A) : M A :=
  match r with
  | inl e => raise e
  | inr a => mret a
  end.

(** [for x in xs: acc = body x acc]. *)
Fixpoint for_each {A B} (xs : list B) (body : B -> A -> M A) (acc : A) : M A :=
  match xs with
  | [] => mret acc
  | x :: rest => acc' ← body x acc; for_each rest body acc'
  end.

(** *** Primitive effects *)

Definition self_dataset : M Pandas.DataFrame := fun s => (Return (dataset s), s).

Definition print (line : string) : M unit := fun s =>
  (Return tt,
   {| dataset := dataset s; description := description s; files := files s;
      stdout := stdout s ++ [line]; figures := figures s |}).

Definition write_file (path : string) (content : Pandas.csv_table) : M unit :=
  fun s =>
  (Return tt,
   {| dataset := dataset s; description := description s;
      files := <[path := content]> (files s);
      stdout := stdout s; figures := figures s |}).

Definition read_file (path : string) : M (option Pandas.csv_table) :=
  fun s => (Return (files s !! path), s).

Definition with_figures (figs : list Pyplot.figure) (s : state) : state :=
  {| dataset := dataset s; description := description s; files := files s;
     stdout := stdout s; figures := figs |}.

Definition set_figures (figs : list Pyplot.figure) : M unit := fun s =>
  (Return tt, with_figures figs s).

Definition get_figures : M (list Pyplot.figure) := fun s =>
  (Return (figures s), s).

(** A change to the current figure (nothing to change without one). *)
Definition on_current (f : Pyplot.figure -> Pyplot.figure) : M unit :=
  figs ← get_figures;
  match figs with
  | fig :: older => set_figures (f fig :: older)
  | [] => mret tt
  end.

(** [plt.figure(figsize=...)]: a new, empty figure becomes the current
    one. *)
Definition figure (figsize : nat * nat) : M unit :=
  figs ← get_figures;
  set_figures ({| Pyplot.figsize := figsize; Pyplot.grid := [];
                  Pyplot.shown := false |} :: figs).

(** [plt.subplots(nrows, ncols, figsize=...)], that is [plt.figure] and
    then [fig.subplots]: the grid specification refuses a number of rows
    or columns that is not positive; otherwise the figure gets its grid of
    blank axes and the squeezed array of them is returned. *)
Definition subplots (nrows ncols : nat) (figsize : nat * nat)
  : M Pyplot.axes_array :=
  _ ← figure figsize;
  if decide (nrows = 0) then
    raise (Exn ValueError "Number of rows must be a positive integer, not 0")
  else if decide (ncols = 0) then
    raise (Exn ValueError "Number of columns must be a positive integer, not 0")
  else
    _ ← on_current (fun fig =>
          {| Pyplot.figsize := Pyplot.figsize fig;
             Pyplot.grid := Pyplot.new_grid nrows ncols;
             Pyplot.shown := Pyplot.shown fig |});
    mret (Pyplot.squeeze nrows ncols).

Definition on_axes (f : Pyplot.axes -> Pyplot.axes) (ax : nat * nat) : M unit :=
  on_current (fun fig =>
    {| Pyplot.figsize := Pyplot.figsize fig;
       Pyplot.grid := Pyplot.on_axes f ax (Pyplot.grid fig);
       Pyplot.shown := Pyplot.shown fig |}).

(** [series.plot(kind=..., ax=ax)], [ax.set_title(t)], [ax.axis('off')]:
    what they leave on the axes; the drawing itself is taken to succeed. *)
Definition plot (c : Pyplot.chart) (ax : nat * nat) : M unit :=
  on_axes (Pyplot.draw c) ax.

Definition set_title (t : string) (ax : nat * nat) : M unit :=
  on_axes (Pyplot.with_title t) ax.

Definition axis_off (ax : nat * nat) : M unit :=
  on_axes Pyplot.axis_off ax.

(** [plt.tight_layout()] moves nothing that is modelled. *)
Definition tight_layout : M unit := mret tt.

Definition show : M unit :=
  on_current (fun fig =>
    {| Pyplot.figsize := Pyplot.figsize fig;
       Pyplot.grid := Pyplot.grid fig;
       Pyplot.shown := true |}).

(** [seq[i]] on an index of labels, for [i >= 0]. *)
Definition item (labels : list string) (i : nat) : M string :=
  match labels !! i with
  | Some l => mret l
  | None => raise (Exn IndexError "index out of bounds")
  end.

(** [math.ceil(n / d)] for a length [n] and [d > 0] (the float quotient is
    exact enough for every length a frame can have). *)
Definition ceil_div (n d : nat) : nat :=
  if n mod d =? 0 then n / d else S (n / d).

Definition newline : string := String (ascii_of_nat 10) EmptyString.

(** *** The methods, in source order *)

Section Methods.

Variable rt : runtime.

Definition setDescription (text : string) : M unit := fun s =>
  (Return tt,
   {| dataset := dataset s; description := Some text; files := files s;
      stdout := stdout s; figures := figures s |}).

Definition getDescription : M string := fun s =>
  match description s with
  | Some text => (Return text, s)
  | None =>
      (Raise (Exn AttributeError
         "'ExploratoryDataAnalysis' object has no attribute 'description'"), s)
  end.

Definition getShape : M (nat * nat) :=
  df ← self_dataset; mret (Pandas.shape df).

Definition getSize : M nat :=
  df ← self_dataset; mret (Pandas.size df).

Definition getHead : M Pandas.DataFrame :=
  df ← self_dataset; mret (Pandas.head 5 df).

Definition getColumns : M (list string) :=
  df ← self_dataset; mret (Pandas.labels df).

Definition getTypes : M (list (string * Pandas.Dtype)) :=
  df ← self_dataset; mret (Pandas.dtypes df).

Definition getStatistics : M Pandas.DataFrame :=
  df ← self_dataset; lift (describe rt df).

Definition getNulls : M (list (string * nat)) :=
  df ← self_dataset; mret (Pandas.sum (Pandas.isnull df)).

Definition get_numeric_columns : M (list string) :=
  df ← self_dataset;
  let numeric_cols :=
    Pandas.labels (Pandas.select_dtypes [Pandas.float64; Pandas.int64] df) in
  mret numeric_cols.

Definition getBoxplots : M unit :=
  let num_cols := 3 in
  cols ← get_numeric_columns;
  let num_rows := ceil_div (length cols) num_cols in
  axs ← subplots num_rows num_cols (12, 4 * num_rows);
  numeric_variables ← get_numeric_columns;
  _ ← for_each (seq 0 num_rows) (fun i variable_index =>
        for_each (seq 0 num_cols) (fun j variable_index =>
          if variable_index <? length numeric_variables then
            variable ← item numeric_variables variable_index;
            ax ← lift (Pyplot.getitem2 axs i j);
            _ ← plot (Pyplot.Box variable) ax;
            ax ← lift (Pyplot.getitem2 axs i j);
            _ ← set_title variable ax;
            mret (variable_index + 1)
          else
            ax ← lift (Pyplot.getitem2 axs i j);
            _ ← axis_off ax;
            mret variable_index) variable_index) 0;
  _ ← tight_layout;
  show.

Definition getUniques : M (list (string * nat)) :=
  df ← self_dataset; mret (nunique rt df).

Definition countUniques : M string :=
  cols ← getColumns;
  for_each cols (fun col result =>
    df ← self_dataset;
    mret (result +:+ newline +:+ "Columna: " +:+ col +:+ newline +:+
          value_counts_repr rt (Pandas.getitem df col) +:+ newline)) "".

(** [nBins] is 10 when the caller leaves it out. *)
Definition getHistograms (nBins : Z) : M unit :=
  let num_cols := 3 in
  cols ← get_numeric_columns;
  let num_rows := ceil_div (length cols) num_cols in
  axs ← subplots num_rows num_cols (12, 4 * num_rows);
  numeric_variables ← get_numeric_columns;
  _ ← for_each (seq 0 num_rows) (fun i variable_index =>
        for_each (seq 0 num_cols) (fun j variable_index =>
          if variable_index <? length numeric_variables then
            variable ← item numeric_variables variable_index;
            ax ← lift (Pyplot.getitem2 axs i j);
            _ ← plot (Pyplot.Hist variable nBins) ax;
            ax ← lift (Pyplot.getitem2 axs i j);
            _ ← set_title variable ax;
            mret (variable_index + 1)
          else
            ax ← lift (Pyplot.getitem2 axs i j);
            _ ← axis_off ax;
            mret variable_index) variable_index) 0;
  _ ← tight_layout;
  show.

Definition get_categorical_columns : M (list string) :=
  df ← self_dataset;
  let categorical_cols :=
    Pandas.labels (Pandas.select_dtypes [Pandas.object_; Pandas.category] df) in
  mret categorical_cols.

Definition plot_bar_charts_categorical_columns : M unit :=
  let num_cols := 3 in
  cols ← get_categorical_columns;
  let num_rows := ceil_div (length cols) num_cols in
  axs ← subplots num_rows num_cols (12, 4 * num_rows);
  categorical_variables ← get_categorical_columns;
  _ ← for_each (seq 0 num_rows) (fun i variable_index =>
        for_each (seq 0 num_cols) (fun j variable_index =>
          if variable_index <? length categorical_variables then
            variable ← item categorical_variables variable_index;
            ax ← lift (Pyplot.getitem2 axs i j);
            _ ← plot (Pyplot.Bar variable) ax;
            ax ← lift (Pyplot.getitem2 axs i j);
            _ ← set_title variable ax;
            mret (variable_index + 1)
          else
            ax ← lift (Pyplot.getitem2 axs i j);
            _ ← axis_off ax;
            mret variable_index) variable_index) 0;
  _ ← tight_layout;
  show.

(** The three charting methods are one loop, over the columns a selector
    returns and with the kind of chart drawn for a column.  [chart_cell] is
    the body of the inner loop. *)
Definition chart_cell (axs : Pyplot.axes_array) (variables : list string)
    (kind : string -> Pyplot.chart) (i j variable_index : nat) : M nat :=
  if variable_index <? length variables then
    variable ← item variables variable_index;
    ax ← lift (Pyplot.getitem2 axs i j);
    _ ← plot (kind variable) ax;
    ax ← lift (Pyplot.getitem2 axs i j);
    _ ← set_title variable ax;
    mret (variable_index + 1)
  else
    ax ← lift (Pyplot.getitem2 axs i j);
    _ ← axis_off ax;
    mret variable_index.

Definition chart_grid (select : M (list string))
    (kind : string -> Pyplot.chart) : M unit :=
  let num_cols := 3 in
  cols ← select;
  let num_rows := ceil_div (length cols) num_cols in
  axs ← subplots num_rows num_cols (12, 4 * num_rows);
  variables ← select;
  _ ← for_each (seq 0 num_rows) (fun i variable_index =>
        for_each (seq 0 num_cols) (chart_cell axs variables kind i)
                 variable_index) 0;
  _ ← tight_layout;
  show.

(** The figure [plt.subplots] has created when the loop starts. *)
Definition blank_figure (nrows : nat) : Pyplot.figure :=
  {| Pyplot.figsize := (12, 4 * nrows);
     Pyplot.grid := Pyplot.new_grid nrows 3;
     Pyplot.shown := false |}.

(** The state while the loop runs: only the grid of the new figure moves. *)
Definition drawing (s : state) (older : list Pyplot.figure) (fs : nat * nat)
    (g : list (list Pyplot.axes)) : state :=
  with_figures ({| Pyplot.figsize := fs; Pyplot.grid := g;
                   Pyplot.shown := false |} :: older) s.

(** A selector that reads the frame and nothing else. *)
Definition reads (f : Pandas.DataFrame -> list string)
    (select : M (list string)) : Prop :=
  forall s, select s = (Return (f (dataset s)), s).

(** [sns.heatmap(matrix, annot=True, ...)]: the current figure gets one
    axes carrying the annotated heat map over the labels of the matrix.
    The heat map takes the minimum and maximum of the matrix for its
    colour scale, which raises on a matrix without entries. *)
Definition sns_heatmap (labels : list string) : M unit :=
  if decide (labels = []) then
    raise (Exn ValueError
      "zero-size array to reduction operation fmin which has no identity")
  else
    _ ← on_current (fun fig =>
          {| Pyplot.figsize := Pyplot.figsize fig;
             Pyplot.grid := Pyplot.new_grid 1 1;
             Pyplot.shown := Pyplot.shown fig |});
    plot (Pyplot.Heatmap labels) (0, 0).

(** [plt.title(t)] titles the axes of the heat map. *)
Definition plt_title (t : string) : M unit := set_title t (0, 0).

Definition getCorrelationMatrix : M unit :=
  df ← self_dataset;
  correlation_matrix ← lift (Pandas.corr false df);
  _ ← figure (10, 8);
  _ ← sns_heatmap correlation_matrix;
  _ ← plt_title "Correlation Matrix";
  show.

(** The lines the delegating methods print. *)
Definition sweetviz_missing : string :=
  "Sweetviz no está instalado. Intentando instalarlo...".
Definition sweetviz_failed : string :=
  "No se pudo instalar Sweetviz. Por favor, instálalo manualmente. Error: ".
Definition autoviz_missing : string :=
  "Autoviz no está instalado. Intentando instalarlo...".
Definition autoviz_failed : string :=
  "No se pudo instalar Autoviz. Por favor, instálalo manualmente. Error: ".

(** The two delegating methods.  The value bound by the import block is
    [Some tt] when the library is available and [None] when the handler
    executed [return]. *)
Definition getAutomaticStatisticalEDA : M unit :=
  sv ← try_except
         (_ ← call (first_import (sweetviz rt)); mret (Some tt))
         ImportError (fun _ =>
           _ ← print sweetviz_missing;
           try_except
             (_ ← call (pip_install (sweetviz rt));
              _ ← call (second_import (sweetviz rt));
              mret (Some tt))
             Exception (fun e =>
               _ ← print (sweetviz_failed +:+ str e);
               mret None));
  match sv with
  | None => mret tt
  | Some _ =>
      df ← self_dataset;
      _ ← call (sv_analyze rt df);
      call (show_notebook rt)
  end.

Definition csv_filename : string := "temp_dataset.csv".

Definition getAutomaticGraphicalEDA : M unit :=
  av ← try_except
         (_ ← call (first_import (autoviz rt)); mret (Some tt))
         ImportError (fun _ =>
           _ ← print autoviz_missing;
           try_except
             (_ ← call (pip_install (autoviz rt));
              _ ← call (second_import (autoviz rt));
              mret (Some tt))
             Exception (fun e =>
               _ ← print (autoviz_failed +:+ str e);
               mret None));
  match av with
  | None => mret tt
  | Some _ =>
      df ← self_dataset;
      _ ← call (csv_write rt);
      _ ← write_file csv_filename (Pandas.to_csv df);
      _ ← call (AutoViz_Class rt);
      content ← read_file csv_filename;
      call (AutoViz rt content)
  end.

(** The methods of the class as one type, to speak about all of them. *)
Inductive method :=
| SetDescription (text : string)
| GetDescription
| GetShape | GetSize | GetHead | GetColumns | GetTypes | GetStatistics
| GetNulls | Get_numeric_columns | GetBoxplots | GetUniques | CountUniques
| GetHistograms (nBins : Z)
| Get_categorical_columns | Plot_bar_charts_categorical_columns
| GetCorrelationMatrix
| GetAutomaticStatisticalEDA | GetAutomaticGraphicalEDA.

Definition is_setDescription (m : method) : bool :=
  match m with
  | SetDescription _ => true
  | _ => false
  end.

(** Calling a method and dropping the value it returns. *)
Definition forget {A} (m : M A) : M unit := _ ← m; mret tt.

Definition invoke (m : method) : M unit :=
  match m with
  | SetDescription text => setDescription text
  | GetDescription => forget getDescription
  | GetShape => forget getShape
  | GetSize => forget getSize
  | GetHead => forget getHead
  | GetColumns => forget getColumns
  | GetTypes => forget getTypes
  | GetStatistics => forget getStatistics
  | GetNulls => forget getNulls
  | Get_numeric_columns => forget get_numeric_columns
  | GetBoxplots => getBoxplots
  | GetUniques => forget getUniques
  | CountUniques => forget countUniques
  | GetHistograms nBins => getHistograms nBins
  | Get_categorical_columns => forget get_categorical_columns
  | Plot_bar_charts_categorical_columns => plot_bar_charts_categorical_columns
  | GetCorrelationMatrix => getCorrelationMatrix
  | GetAutomaticStatisticalEDA => getAutomaticStatisticalEDA
  | GetAutomaticGraphicalEDA => getAutomaticGraphicalEDA
  end.

(** A caller making one call after another, going on after an exception
    (the state an exception leaves is the state the next call sees). *)
Fixpoint session (ms : list method) (s : state) : state :=
  match ms with
  | [] => s
  | m :: rest => session rest (snd (invoke m s))
  end.

End Methods.

(** [keeps proj m]: running [m] never changes the part [proj] of the
    state, whether [m] returns or raises. *)
Definition keeps {T A} (proj : state -> T) (m : M A) : Prop :=
  forall s, proj (snd (m s)) = proj s.

End EDA.

(* ===================================================================== *)
(** ** The vocabulary of the specification *)
(* ===================================================================== *)

Module Spec.

Import Pandas.

(** A numeric column in the words of the glossary: its type is
    floating-point or integer. *)
Definition numeric (d : Dtype) : bool :=
  match d with
  | int8 | int16 | int32 | int64
  | uint8 | uint16 | uint32 | uint64
  | float16 | float32 | float64 => true
  | _ => false
  end.

(** A categorical column in the words of the glossary: text/object or a
    categorical label. *)
Definition categorical (d : Dtype) : bool :=
  match d with
  | object_ | category => true
  | _ => false
  end.

(** The number of missing entries of a column. *)
Definition missing_in_column (c : Series) : nat :=
  length (filter (fun v => isna v = true) (values c)).

(** The number of missing entries of a row, and of the whole frame counted
    row by row. *)
Definition missing_in_row (df : DataFrame) (i : nat) : nat :=
  length (filter (fun c => isna <$> values c !! i = Some true) (columns df)).

Definition total_missing (df : DataFrame) : nat :=
  sum_list (map (missing_in_row df) (seq 0 (length (index df)))).

(** [series[label]] on a label-indexed result: the entries under that
    label (exactly one when labels do not repeat). *)
Definition at_label {A} (label : string) (ser : list (string * A)) : list A :=
  map snd (filter (fun p => fst p = label) ser).

(** The number of cells of a frame, counted column by column. *)
Definition cells (df : DataFrame) : nat :=
  sum_list (map (fun c => length (values c)) (columns df)).

(** The subplot the layout puts at position [k], counting row by row:
    the chart of the [k]-th eligible column under its title, or a hidden
    cell when there is no such column. *)
Definition subplot_for (kind : string -> Pyplot.chart)
    (variables : list string) (k : nat) : Pyplot.axes :=
  match variables !! k with
  | Some v => {| Pyplot.drawn := Some (kind v); Pyplot.title := Some v;
                 Pyplot.axis_on := true |}
  | None => {| Pyplot.drawn := None; Pyplot.title := None;
               Pyplot.axis_on := false |}
  end.

(** The grid of ceil(N/3) rows by 3 columns for N eligible columns. *)
Definition layout_row (kind : string -> Pyplot.chart)
    (variables : list string) (i : nat) : list Pyplot.axes :=
  map (fun j => subplot_for kind variables (3 * i + j)) (seq 0 3).

Definition layout (kind : string -> Pyplot.chart)
    (variables : list string) : list (list Pyplot.axes) :=
  map (layout_row kind variables) (seq 0 (EDA.ceil_div (length variables) 3)).

Definition populated (g : list (list Pyplot.axes)) : nat :=
  length (filter (fun a => is_Some (Pyplot.drawn a)) (concat g)).

Definition hidden (g : list (list Pyplot.axes)) : nat :=
  length (filter (fun a => Pyplot.axis_on a = false) (concat g)).

(** The error that makes the install-and-retry attempt fail, if it does:
    pip could not be run, or the import after it raised. *)
Definition retry_error (lib : EDA.library) : option Py.exn :=
  match EDA.pip_install lib with
  | Some e => Some e
  | None => EDA.second_import lib
  end.

(** The library gets imported, at the first attempt or after the install. *)
Definition available (lib : EDA.library) : bool :=
  match EDA.first_import lib with
  | None => true
  | Some e =>
      Py.isinstance e Py.ImportError
      && bool_decide (retry_error lib = None)
  end.

End Spec.

(* ===================================================================== *)
(** ** Sample frames and runtimes *)
(* ===================================================================== *)

Module Sample.

Import Pandas.

Definition rows3 : list scalar := [SInt 0; SInt 1; SInt 2].

(** The example of the specification: a = [1, 2, 2], b = ["x", "y", "y"]. *)
Definition frame_3x2 : DataFrame :=
  {| index := rows3;
     columns :=
       [ {| name := "a"; dtype := int64; values := [SInt 1; SInt 2; SInt 2] |};
         {| name := "b"; dtype := object_;
            values := [SStr "x"; SStr "y"; SStr "y"] |} ] |}.

Definition frame_with_gaps : DataFrame :=
  {| index := rows3;
     columns :=
       [ {| name := "a"; dtype := float64;
            values := [SFloat (FFin 1 0); SFloat FNaN; SFloat FNaN] |};
         {| name := "b"; dtype := object_;
            values := [SStr ""; SNone; SStr "y"] |} ] |}.

(** A 32-bit integer column next to a text column. *)
Definition frame_int32 : DataFrame :=
  {| index := rows3;
     columns :=
       [ {| name := "a"; dtype := int32; values := [SInt 1; SInt 2; SInt 2] |};
         {| name := "b"; dtype := object_;
            values := [SStr "x"; SStr "y"; SStr "y"] |} ] |}.

(** A single numeric column. *)
Definition frame_one_numeric : DataFrame :=
  {| index := rows3;
     columns :=
       [ {| name := "a"; dtype := int64; values := [SInt 1; SInt 2; SInt 2] |} ] |}.

(** Four numeric columns and a text column. *)
Definition frame_five : DataFrame :=
  {| index := rows3;
     columns :=
       [ {| name := "a"; dtype := int64; values := [SInt 1; SInt 2; SInt 2] |};
         {| name := "b"; dtype := float64;
            values := [SFloat (FFin 1 0); SFloat (FFin 3 (-1)); SFloat FNaN] |};
         {| name := "c"; dtype := int64; values := [SInt 0; SInt 0; SInt 7] |};
         {| name := "d"; dtype := object_;
            values := [SStr "x"; SStr "y"; SStr "y"] |};
         {| name := "e"; dtype := float64;
            values := [SFloat (FFin 5 0); SFloat (FFin 1 1); SFloat (FFin 1 2)] |} ] |}.

Definition missing (module : string) : Py.exn :=
  Py.Exn Py.ModuleNotFoundError ("No module named '" +:+ module +:+ "'").

(** Neither report generator is installed and the install does not help. *)
Definition nothing_installed : EDA.runtime :=
  {| EDA.describe := fun df => inr df;
     EDA.nunique := fun df => [];
     EDA.value_counts_repr := fun cs => "";
     EDA.sweetviz :=
       {| EDA.first_import := Some (missing "sweetviz");
          EDA.pip_install := None;
          EDA.second_import := Some (missing "sweetviz") |};
     EDA.sv_analyze := fun df => None;
     EDA.show_notebook := None;
     EDA.autoviz :=
       {| EDA.first_import := Some (missing "autoviz");
          EDA.pip_install :=
            Some (Py.Exn Py.FileNotFoundError
                    "[Errno 2] No such file or directory: 'pip'");
          EDA.second_import := Some (missing "autoviz") |};
     EDA.csv_write := None;
     EDA.AutoViz_Class := None;
     EDA.AutoViz := fun content => None |}.

(** Both report generators are installed and run to the end. *)
Definition all_installed : EDA.runtime :=
  {| EDA.describe := fun df => inr df;
     EDA.nunique := fun df => [];
     EDA.value_counts_repr := fun cs => "";
     EDA.sweetviz :=
       {| EDA.first_import := None; EDA.pip_install := None;
          EDA.second_import := None |};
     EDA.sv_analyze := fun df => None;
     EDA.show_notebook := None;
     EDA.autoviz :=
       {| EDA.first_import := None; EDA.pip_install := None;
          EDA.second_import := None |};
     EDA.csv_write := None;
     EDA.AutoViz_Class := None;
     EDA.AutoViz := fun content => None |}.

(** A fresh inspector over a frame, in an empty working directory. *)
Definition fresh (df : DataFrame) : EDA.state := EDA.init df ∅ [] [].

End Sample.

(* ===================================================================== *)
(** ** Further vocabulary: what a call returns and touches *)
(* ===================================================================== *)

Module Props.

Import Pandas.







(** What a report generator does once its library is there: the first
    failure of its steps, if any. *)
Definition sweetviz_run (rt : EDA.runtime) (df : DataFrame) : option Py.exn :=
  match EDA.sv_analyze rt df with
  | Some e => Some e
  | None => EDA.show_notebook rt
  end.

Definition autoviz_run (rt : EDA.runtime) (df : DataFrame) : option Py.exn :=
  match EDA.AutoViz_Class rt with
  | Some e => Some e
  | None => EDA.AutoViz rt (Some (to_csv df))
  end.

(** The outcome of a call that returns nothing. *)
Definition finish (r : option Py.exn) : EDA.outcome unit :=
  match r with
  | Some e => EDA.Raise e
  | None => EDA.Return tt
  end.

Definition broken_install : EDA.runtime :=
  {| EDA.describe := fun df => inr df;
     EDA.nunique := fun df => [];
     EDA.value_counts_repr := fun cs => ""%string;
     EDA.sweetviz :=
       {| EDA.first_import :=
            Some (Py.Exn Py.AttributeError
                    "module 'numpy' has no attribute 'warnings'");
          EDA.pip_install := None; EDA.second_import := None |};
     EDA.sv_analyze := fun df => None;
     EDA.show_notebook := None;
     EDA.autoviz :=
       {| EDA.first_import := Some (Sample.missing "autoviz");
          EDA.pip_install := Some (Py.Exn Py.KeyboardInterrupt "");
          EDA.second_import := None |};
     EDA.csv_write := None;
     EDA.AutoViz_Class := None;
     EDA.AutoViz := fun content => None |}.



End Props.

(* ===================================================================== *)
(** ** The Python runtime at work *)
(* ===================================================================== *)

Example float_accepts_samples :
  map Py.float_accepts
      ["1.5"; " 1e5 "; "-.5"; "1."; "1_000.25"; "nan"; "-Infinity"; "1e+5";
       "x"; ""; "."; "1__0"; "_1"; "1e"; "0x10"; "1.5 2"]%string
  = [true; true; true; true; true; true; true; true;
     false; false; false; false; false; false; false; false].
Proof. reflexivity. Qed.

Example import_errors_are_caught :
  Py.issubclass Py.ModuleNotFoundError Py.ImportError = true
  /\ Py.issubclass Py.ModuleNotFoundError Py.Exception = true
  /\ Py.issubclass Py.FileNotFoundError Py.Exception = true
  /\ Py.issubclass Py.AttributeError Py.ImportError = false
  /\ Py.issubclass Py.KeyboardInterrupt Py.Exception = false.
Proof. repeat split. Qed.

(** Every class descends from [BaseException]. *)
Lemma issubclass_BaseException c : Py.issubclass c Py.BaseException = true.
Proof. by destruct c. Qed.

(* ===================================================================== *)
(** ** Properties of the pandas model *)
(* ===================================================================== *)

Section PandasFacts.

Import Pandas.

Lemma sum_list_b2n_filter {A} (p : A -> bool) (l : list A) :
  sum_list (map Nat.b2n (map p l)) = length (filter (fun v => p v = true) l).
Proof.
  induction l as [|x l IH]; [done|].
  cbn [map sum_list]. rewrite filter_cons.
  destruct (p x) eqn:Hp; case_decide; try congruence; cbn; lia.
Qed.

Lemma size_counts_cells (df : DataFrame) :
  wf df -> Spec.cells df = size df.
Proof.
  unfold wf, Spec.cells, size, shape.
  generalize (length (index df)) as r.
  induction (columns df) as [|c cs IH]; intros r Hwf; cbn.
  - lia.
  - apply Forall_cons in Hwf as [Hc Hcs].
    rewrite (IH _ Hcs), Hc. lia.
Qed.

Lemma head_wf n (df : DataFrame) : wf df -> wf (head n df).
Proof.
  unfold wf, head; cbn. intros Hwf.
  apply Forall_map. eapply Forall_impl; [exact Hwf|].
  intros c Hc; cbn in *. rewrite !length_take. lia.
Qed.

Lemma head_row n (df : DataFrame) i :
  i < n -> row (head n df) i = row df i.
Proof.
  intros Hi. unfold row, head; cbn.
  rewrite map_map. apply map_ext. intros c; cbn.
  by apply lookup_take_lt.
Qed.

Lemma head_all n (df : DataFrame) :
  wf df -> length (index df) <= n -> head n df = df.
Proof.
  destruct df as [idx cols]. unfold wf, head; cbn. intros Hwf Hn.
  f_equal; [by apply take_ge|].
  induction Hwf as [|c cs Hc _ IH]; [done|].
  cbn. rewrite IH. f_equal.
  destruct c as [nm dt vs]; cbn in *. f_equal. apply take_ge. lia.
Qed.

(** One column's missing entries, counted by position. *)
Lemma missing_by_position (vs : list scalar) (r : nat) :
  length vs = r ->
  length (filter (fun v => isna v = true) vs)
  = sum_list (map (fun i => Nat.b2n (bool_decide (isna <$> vs !! i = Some true)))
                  (seq 0 r)).
Proof.
  revert r. induction vs as [|v vs IH]; intros r Hr; subst r; [done|].
  specialize (IH _ eq_refl).
  cbn [length seq map sum_list]. rewrite filter_cons, <- seq_shift, map_map.
  transitivity (Nat.b2n (isna v) + length (filter (fun v => isna v = true) vs)).
  - destruct (isna v); case_decide; cbn; congruence.
  - rewrite IH. f_equal.
    cbn. destruct (isna v); case_bool_decide; cbn; congruence.
Qed.

Lemma sum_list_pointwise_add {A} (f g : A -> nat) (l : list A) :
  sum_list (map (fun x => f x + g x) l)
  = sum_list (map f l) + sum_list (map g l).
Proof. induction l as [|x l IH]; cbn; lia. Qed.

(** Counting by columns and counting by rows agree. *)
Lemma missing_double_count (df : DataFrame) :
  wf df ->
  sum_list (map Spec.missing_in_column (columns df)) = Spec.total_missing df.
Proof.
  unfold wf, Spec.total_missing, Spec.missing_in_row.
  generalize (length (index df)) as r.
  induction (columns df) as [|c cs IH]; intros r Hwf.
  - cbn. induction (seq 0 r); cbn; lia.
  - apply Forall_cons in Hwf as [Hc Hcs].
    cbn [map sum_list_with id]. rewrite (IH _ Hcs).
    unfold Spec.missing_in_column at 1.
    rewrite (missing_by_position _ _ Hc), <- sum_list_pointwise_add.
    f_equal. apply map_ext. intros i. rewrite filter_cons.
    case_bool_decide; case_decide; cbn; congruence.
Qed.

(** What [isnull().sum()] holds, position by position. *)
Lemma nulls_lookup (df : DataFrame) i c :
  columns df !! i = Some c ->
  sum (isnull df) !! i = Some (name c, Spec.missing_in_column c).
Proof.
  intros Hi. unfold sum, isnull.
  rewrite map_map, list_lookup_fmap, Hi. cbn.
  by rewrite sum_list_b2n_filter.
Qed.

Lemma nulls_values (df : DataFrame) :
  map snd (sum (isnull df)) = map Spec.missing_in_column (columns df).
Proof.
  unfold sum, isnull. rewrite !map_map. apply map_ext.
  intros c; cbn. apply sum_list_b2n_filter.
Qed.

Lemma nulls_at_label (df : DataFrame) c :
  NoDup (labels df) -> c ∈ columns df ->
  Spec.at_label (name c) (sum (isnull df)) = [Spec.missing_in_column c].
Proof.
  unfold labels, Spec.at_label, sum, isnull. rewrite map_map.
  induction (columns df) as [|d ds IH]; intros Hnd Hin; [by inversion Hin|].
  cbn [map] in *. apply NoDup_cons in Hnd as [Hd Hds].
  rewrite filter_cons. cbn [fst].
  apply elem_of_cons in Hin as [->|Hin].
  - rewrite decide_True by done. cbn [map snd]. rewrite sum_list_b2n_filter.
    f_equal. clear IH Hds. induction ds as [|e es IHe]; [done|].
    cbn [map]. rewrite filter_cons. cbn [fst].
    rewrite decide_False.
    + apply IHe. intros He. apply Hd. cbn [map]. apply elem_of_cons. by right.
    + intros He. apply Hd. cbn [map]. rewrite <- He. apply elem_of_cons. by left.
  - rewrite decide_False; [by apply IH|].
    intros He. apply Hd. rewrite He.
    apply list_elem_of_In, in_map, list_elem_of_In, Hin.
Qed.

End PandasFacts.

(* ===================================================================== *)
(** ** Queries: shape, size, head, nulls *)
(* ===================================================================== *)

(** C4. For a dataset with R rows and C columns, [getShape()] returns the
    pair (R, C) and [getSize()] returns R * C; both leave the state as it
    was, and for a frame whose columns all have R entries R * C is the
    number of its cells. *)
Theorem getShape_getSize (s : EDA.state) (R C : nat) :
  length (Pandas.index (EDA.dataset s)) = R ->
  length (Pandas.columns (EDA.dataset s)) = C ->
  EDA.getShape s = (EDA.Return (R, C), s)
  /\ EDA.getSize s = (EDA.Return (R * C), s)
  /\ (Pandas.wf (EDA.dataset s) -> Spec.cells (EDA.dataset s) = R * C).
Proof.
  intros HR HC. repeat split.
  - cbv [EDA.getShape EDA.self_dataset mbind mret EDA.M_bind EDA.M_ret Pandas.shape].
    by rewrite HR, HC.
  - cbv [EDA.getSize EDA.self_dataset mbind mret EDA.M_bind EDA.M_ret
         Pandas.size Pandas.shape].
    by rewrite HR, HC.
  - intros Hwf. rewrite (size_counts_cells _ Hwf).
    unfold Pandas.size, Pandas.shape. by rewrite HR, HC.
Qed.

Lemma getShape_getSize_witness :
  let s := Sample.fresh Sample.frame_3x2 in
  EDA.getShape s = (EDA.Return (3, 2), s)
  /\ EDA.getSize s = (EDA.Return (3 * 2), s)
  /\ (Pandas.wf (EDA.dataset s) -> Spec.cells (EDA.dataset s) = 3 * 2).
Proof.
  exact (getShape_getSize (Sample.fresh Sample.frame_3x2) 3 2 eq_refl eq_refl).
Defined.

(** C10. [getHead()] returns the first min(5, R) rows of the dataset in
    their original order, under the same column labels and dtypes; a
    dataset with fewer than 5 rows is returned whole, without an error. *)
Theorem getHead_first_rows (s : EDA.state) :
  let df := EDA.dataset s in
  let R := length (Pandas.index df) in
  exists h,
    EDA.getHead s = (EDA.Return h, s)
    /\ length (Pandas.index h) = min 5 R
    /\ Pandas.dtypes h = Pandas.dtypes df
    /\ (forall i, i < min 5 R ->
          Pandas.index h !! i = Pandas.index df !! i
          /\ Pandas.row h i = Pandas.row df i)
    /\ (Pandas.wf df -> Pandas.wf h)
    /\ (Pandas.wf df -> R < 5 -> h = df).
Proof.
  intros df R. exists (Pandas.head 5 df). repeat split.
  - apply length_take.
  - unfold Pandas.dtypes, Pandas.head; cbn. rewrite map_map. by apply map_ext.
  - change (take 5 (Pandas.index df) !! i = Pandas.index df !! i).
    apply lookup_take_lt. lia.
  - apply head_row. lia.
  - apply head_wf.
  - intros Hwf HR. apply head_all; [done|]. fold R. lia.
Qed.

Lemma getHead_first_rows_witness :
  exists h,
    EDA.getHead (Sample.fresh Sample.frame_3x2) =
      (EDA.Return h, Sample.fresh Sample.frame_3x2)
    /\ h = Sample.frame_3x2.
Proof.
  destruct (getHead_first_rows (Sample.fresh Sample.frame_3x2))
    as (h & Hrun & _ & _ & _ & _ & Hall).
  exists h. split; [exact Hrun|].
  apply Hall.
  - repeat constructor.
  - cbn. lia.
Defined.

(** C5. [getNulls()] holds, for every column in order, its label with the
    number of missing entries of that column; under distinct labels
    [getNulls()[col]] is that number; and the counts add up to the number
    of missing values of the dataset counted row by row. *)
Theorem getNulls_counts (s : EDA.state) :
  let df := EDA.dataset s in
  exists nulls,
    EDA.getNulls s = (EDA.Return nulls, s)
    /\ length nulls = length (Pandas.columns df)
    /\ (forall i c, Pandas.columns df !! i = Some c ->
          nulls !! i = Some (Pandas.name c, Spec.missing_in_column c))
    /\ (NoDup (Pandas.labels df) ->
        forall c, c ∈ Pandas.columns df ->
          Spec.at_label (Pandas.name c) nulls = [Spec.missing_in_column c])
    /\ (Pandas.wf df -> sum_list (map snd nulls) = Spec.total_missing df).
Proof.
  intros df. exists (Pandas.sum (Pandas.isnull df)). repeat split.
  - unfold Pandas.sum, Pandas.isnull. by rewrite !length_map.
  - apply nulls_lookup.
  - intros Hnd c Hc. by apply nulls_at_label.
  - intros Hwf. rewrite nulls_values. by apply missing_double_count.
Qed.

Lemma getNulls_counts_witness :
  exists nulls,
    EDA.getNulls (Sample.fresh Sample.frame_with_gaps) =
      (EDA.Return nulls, Sample.fresh Sample.frame_with_gaps)
    /\ nulls = [("a"%string, 2); ("b"%string, 1)]
    /\ sum_list (map snd nulls) = Spec.total_missing Sample.frame_with_gaps.
Proof.
  destruct (getNulls_counts (Sample.fresh Sample.frame_with_gaps))
    as (nulls & Hrun & _ & _ & _ & Hsum).
  exists nulls. split; [exact Hrun|]. split.
  - cbv in Hrun. congruence.
  - apply Hsum. repeat constructor.
Defined.

(* ===================================================================== *)
(** ** What a method leaves alone *)
(* ===================================================================== *)

Section Keeps.

Import EDA.

Context {T : Type} (proj : state -> T).

Lemma keeps_ret {A} (a : A) : keeps proj (mret a).
Proof. by intros s. Qed.

Lemma keeps_raise {A} (e : Py.exn) : keeps proj (@raise A e).
Proof. by intros s. Qed.

Lemma keeps_bind {A B} (m : M A) (f : A -> M B) :
  keeps proj m -> (forall a, keeps proj (f a)) -> keeps proj (m ≫= f).
Proof.
  intros Hm Hf s. unfold mbind, M_bind.
  specialize (Hm s). destruct (m s) as [[a|e] s1]; [|exact Hm].
  etrans; [apply Hf|exact Hm].
Qed.

Lemma keeps_try_except {A} (body : M A) c (handler : Py.exn -> M A) :
  keeps proj body -> (forall e, keeps proj (handler e)) ->
  keeps proj (try_except body c handler).
Proof.
  intros Hb Hh s. unfold try_except.
  specialize (Hb s). destruct (body s) as [[a|e] s1]; [exact Hb|].
  destruct (Py.isinstance e c); [|exact Hb].
  etrans; [apply Hh|exact Hb].
Qed.

Lemma keeps_call r : keeps proj (call r).
Proof. by destruct r. Qed.

Lemma keeps_lift {A} (r : Py.exn + A) : keeps proj (lift r).
Proof. by destruct r. Qed.

Lemma keeps_for_each {A B} (xs : list B) (body : B -> A -> M A) acc :
  (forall x a, keeps proj (body x a)) -> keeps proj (for_each xs body acc).
Proof.
  intros Hbody. revert acc.
  induction xs as [|x xs IH]; intros acc; cbn [for_each].
  - apply keeps_ret.
  - apply keeps_bind; [apply Hbody|apply IH].
Qed.

Lemma keeps_getDescription : keeps proj getDescription.
Proof. intros s. unfold getDescription. by destruct (description s). Qed.

End Keeps.

Create HintDb eda.

#[local] Hint Unfold
  EDA.getShape EDA.getSize EDA.getHead EDA.getColumns EDA.getTypes
  EDA.getStatistics EDA.getNulls EDA.get_numeric_columns EDA.getBoxplots
  EDA.getUniques EDA.countUniques EDA.getHistograms
  EDA.get_categorical_columns EDA.plot_bar_charts_categorical_columns
  EDA.getCorrelationMatrix EDA.sns_heatmap EDA.plt_title
  EDA.getAutomaticStatisticalEDA
  EDA.getAutomaticGraphicalEDA EDA.forget EDA.subplots EDA.figure EDA.on_axes
  EDA.on_current EDA.plot EDA.set_title EDA.axis_off EDA.tight_layout
  EDA.show EDA.item : eda.

(** Walks through a method body: structure by the lemmas above, branches
    by cases, and a primitive by running it. *)
Ltac keeps_step :=
  match goal with
  | |- EDA.keeps _ (mbind _ _) => apply keeps_bind; [|intros ?]
  | |- EDA.keeps _ (mret _) => apply keeps_ret
  | |- EDA.keeps _ (EDA.raise _) => apply keeps_raise
  | |- EDA.keeps _ (EDA.try_except _ _ _) => apply keeps_try_except; [|intros ?]
  | |- EDA.keeps _ (EDA.for_each _ _ _) => apply keeps_for_each; intros ? ?
  | |- EDA.keeps _ (EDA.call _) => apply keeps_call
  | |- EDA.keeps _ (EDA.lift _) => apply keeps_lift
  | |- EDA.keeps _ EDA.getDescription => apply keeps_getDescription
  | |- EDA.keeps _ (match ?x with _ => _ end) => destruct x
  | |- EDA.keeps _ _ => by intros ?
  end.

Ltac keeps_tac := autounfold with eda; repeat keeps_step.

Section MethodFrames.

Import EDA.

Variable rt : runtime.

Lemma invoke_keeps_dataset (m : method) : keeps dataset (invoke rt m).
Proof. destruct m; cbn [invoke]; keeps_tac. Qed.

Lemma invoke_keeps_description (m : method) :
  is_setDescription m = false -> keeps description (invoke rt m).
Proof. destruct m; intros Hm; try discriminate Hm; cbn [invoke]; keeps_tac. Qed.

Lemma invoke_keeps_files (m : method) :
  m <> GetAutomaticGraphicalEDA -> keeps files (invoke rt m).
Proof. destruct m; intros Hm; try congruence; cbn [invoke]; keeps_tac. Qed.

Lemma session_keeps_dataset ms s : dataset (session rt ms s) = dataset s.
Proof.
  revert s. induction ms as [|m ms IH]; intros s; cbn [session]; [done|].
  by rewrite IH, invoke_keeps_dataset.
Qed.

Lemma session_keeps_description ms s :
  Forall (fun m => is_setDescription m = false) ms ->
  description (session rt ms s) = description s.
Proof.
  intros Hms. revert s.
  induction Hms as [|m ms Hm _ IH]; intros s; cbn [session]; [done|].
  by rewrite IH, invoke_keeps_description.
Qed.

End MethodFrames.

(* ===================================================================== *)
(** ** The description attribute *)
(* ===================================================================== *)

(** C2. On an inspector on which [setDescription] has not been called
    (whatever else was called since construction), [getDescription()]
    fails with an AttributeError; after [setDescription(x)], and whatever
    other methods were called since, [getDescription()] returns exactly
    [x]. *)
Theorem description_lifecycle (rt : EDA.runtime) :
  (forall df fs out figs ms,
     Forall (fun m => EDA.is_setDescription m = false) ms ->
     let s := EDA.session rt ms (EDA.init df fs out figs) in
     exists msg,
       EDA.getDescription s = (EDA.Raise (Py.Exn Py.AttributeError msg), s))
  /\ (forall s x ms,
        Forall (fun m => EDA.is_setDescription m = false) ms ->
        let s' := EDA.session rt ms (snd (EDA.setDescription x s)) in
        EDA.getDescription s' = (EDA.Return x, s')).
Proof.
  split.
  - intros df fs out figs ms Hms s. eexists.
    unfold EDA.getDescription. subst s.
    by rewrite (session_keeps_description rt ms _ Hms).
  - intros s x ms Hms s'.
    unfold EDA.getDescription. subst s'.
    by rewrite (session_keeps_description rt ms _ Hms).
Qed.

Lemma description_lifecycle_witness :
  (exists msg,
     let s := EDA.session Sample.nothing_installed
                [EDA.GetShape; EDA.GetBoxplots; EDA.GetAutomaticGraphicalEDA]
                (EDA.init Sample.frame_3x2 ∅ [] []) in
     EDA.getDescription s = (EDA.Raise (Py.Exn Py.AttributeError msg), s))
  /\ (let s' := EDA.session Sample.nothing_installed [EDA.GetNulls]
                  (snd (EDA.setDescription "x" (Sample.fresh Sample.frame_3x2))) in
      EDA.getDescription s' = (EDA.Return "x"%string, s')).
Proof.
  destruct (description_lifecycle Sample.nothing_installed) as [Hbefore Hafter].
  split.
  - apply (Hbefore Sample.frame_3x2 ∅ [] []
             [EDA.GetShape; EDA.GetBoxplots; EDA.GetAutomaticGraphicalEDA]).
    repeat constructor.
  - apply (Hafter (Sample.fresh Sample.frame_3x2) "x"%string [EDA.GetNulls]).
    repeat constructor.
Defined.

(* ===================================================================== *)
(** ** The bound dataset and the working directory *)
(* ===================================================================== *)

Lemma graphical_files (rt : EDA.runtime) (s : EDA.state) :
  let s' := snd (EDA.getAutomaticGraphicalEDA rt s) in
  EDA.files s' = EDA.files s
  \/ EDA.files s' =
       <[EDA.csv_filename := Pandas.to_csv (EDA.dataset s)]> (EDA.files s).
Proof.
  unfold EDA.getAutomaticGraphicalEDA.
  cbv [mbind mret EDA.M_bind EDA.M_ret EDA.try_except EDA.call EDA.raise
       EDA.print EDA.self_dataset EDA.write_file EDA.read_file].
  repeat (case_match; simplify_eq; cbn [snd EDA.files EDA.dataset]); auto.
Qed.

(** C8. No method changes the bound dataset, whether it returns or
    raises; every method other than [getAutomaticGraphicalEDA] leaves the
    files of the working directory as they were, and that one at most
    writes the export of the dataset under its fixed name. *)
Theorem dataset_never_mutated (rt : EDA.runtime) (m : EDA.method)
    (s : EDA.state) :
  let s' := snd (EDA.invoke rt m s) in
  EDA.dataset s' = EDA.dataset s
  /\ (m <> EDA.GetAutomaticGraphicalEDA -> EDA.files s' = EDA.files s)
  /\ (EDA.files s' = EDA.files s
      \/ EDA.files s' =
           <[EDA.csv_filename := Pandas.to_csv (EDA.dataset s)]> (EDA.files s)).
Proof.
  intros s'. split; [apply invoke_keeps_dataset|]. split.
  - intros Hm. by apply invoke_keeps_files.
  - subst s'. destruct m;
      try (left; by apply invoke_keeps_files).
    apply graphical_files.
Qed.

Lemma dataset_never_mutated_witness :
  let s := Sample.fresh Sample.frame_five in
  let s' := snd (EDA.invoke Sample.all_installed EDA.GetBoxplots s) in
  EDA.dataset s' = Sample.frame_five /\ EDA.files s' = ∅.
Proof.
  destruct (dataset_never_mutated Sample.all_installed EDA.GetBoxplots
              (Sample.fresh Sample.frame_five)) as (Hd & Hf & _).
  split; [exact Hd|]. apply Hf. discriminate.
Defined.

(** C9. A call of [getAutomaticGraphicalEDA] that gets its library and
    returns normally leaves the working directory with the file
    temp_dataset.csv holding the export of the dataset, whatever that file
    held before, and every other file as it was; the file is still there
    when the call returns. *)
Theorem graphical_export (rt : EDA.runtime) (s s' : EDA.state) :
  Spec.available (EDA.autoviz rt) = true ->
  EDA.getAutomaticGraphicalEDA rt s = (EDA.Return tt, s') ->
  EDA.files s' =
    <["temp_dataset.csv"%string := Pandas.to_csv (EDA.dataset s)]> (EDA.files s)
  /\ EDA.files s' !! "temp_dataset.csv"%string
     = Some (Pandas.to_csv (EDA.dataset s))
  /\ EDA.dataset s' = EDA.dataset s.
Proof.
  unfold Spec.available, Spec.retry_error, EDA.getAutomaticGraphicalEDA.
  cbv [mbind mret EDA.M_bind EDA.M_ret EDA.try_except EDA.call EDA.raise
       EDA.print EDA.self_dataset EDA.write_file EDA.read_file].
  intros Hav Hrun.
  assert (EDA.files s' =
    <[EDA.csv_filename := Pandas.to_csv (EDA.dataset s)]> (EDA.files s)
    /\ EDA.dataset s' = EDA.dataset s) as [Hf Hd].
  { repeat (case_match; simplify_eq; cbn in *; try done). }
  repeat split; try done. rewrite Hf. apply lookup_insert_eq.
Qed.

Lemma graphical_export_witness :
  let old := {| Pandas.header := ["stale"%string]; Pandas.rows := [] |} in
  let s := EDA.init Sample.frame_3x2 {["temp_dataset.csv"%string := old]} [] [] in
  EDA.files (snd (EDA.getAutomaticGraphicalEDA Sample.all_installed s))
    !! "temp_dataset.csv"%string
  = Some (Pandas.to_csv Sample.frame_3x2).
Proof.
  intros old s.
  refine (proj1 (proj2 (graphical_export Sample.all_installed s
                          (snd (EDA.getAutomaticGraphicalEDA Sample.all_installed s))
                          eq_refl _))).
  reflexivity.
Defined.

(* ===================================================================== *)
(** ** The delegating methods without their library *)
(* ===================================================================== *)

(** Reads the fields of the state a [print] has built. *)
Ltac degraded_path :=
  cbn [EDA.stdout EDA.dataset EDA.description EDA.files EDA.figures].

(** C7. For both auto-EDA methods: when the first import raises an
    ImportError and the install-and-retry attempt fails with an exception
    [e], the method prints its notice and then its failure message ending
    in the text of [e], returns normally with no value, and changes
    nothing else. *)
Theorem auto_eda_degrades (rt : EDA.runtime) (s : EDA.state) :
  (forall e1 e,
     EDA.first_import (EDA.sweetviz rt) = Some e1 ->
     Py.isinstance e1 Py.ImportError = true ->
     Spec.retry_error (EDA.sweetviz rt) = Some e ->
     Py.isinstance e Py.Exception = true ->
     EDA.getAutomaticStatisticalEDA rt s =
       (EDA.Return tt,
        {| EDA.dataset := EDA.dataset s;
           EDA.description := EDA.description s;
           EDA.files := EDA.files s;
           EDA.stdout := EDA.stdout s ++
             [EDA.sweetviz_missing; EDA.sweetviz_failed +:+ Py.str e];
           EDA.figures := EDA.figures s |}))
  /\ (forall e1 e,
     EDA.first_import (EDA.autoviz rt) = Some e1 ->
     Py.isinstance e1 Py.ImportError = true ->
     Spec.retry_error (EDA.autoviz rt) = Some e ->
     Py.isinstance e Py.Exception = true ->
     EDA.getAutomaticGraphicalEDA rt s =
       (EDA.Return tt,
        {| EDA.dataset := EDA.dataset s;
           EDA.description := EDA.description s;
           EDA.files := EDA.files s;
           EDA.stdout := EDA.stdout s ++
             [EDA.autoviz_missing; EDA.autoviz_failed +:+ Py.str e];
           EDA.figures := EDA.figures s |})).
Proof.
  split; intros e1 e H1 HI1 Hretry HE;
    unfold EDA.getAutomaticStatisticalEDA, EDA.getAutomaticGraphicalEDA,
           Spec.retry_error in *;
    cbv [mbind mret EDA.M_bind EDA.M_ret EDA.try_except EDA.call EDA.raise
         EDA.print];
    rewrite H1; degraded_path; rewrite HI1.
  - destruct (EDA.pip_install (EDA.sweetviz rt)) as [e'|]; simplify_eq;
      rewrite ?Hretry, HE; degraded_path; by rewrite <- app_assoc.
  - destruct (EDA.pip_install (EDA.autoviz rt)) as [e'|]; simplify_eq;
      rewrite ?Hretry, HE; degraded_path; by rewrite <- app_assoc.
Qed.

Lemma auto_eda_degrades_witness :
  let s := Sample.fresh Sample.frame_3x2 in
  fst (EDA.getAutomaticStatisticalEDA Sample.nothing_installed s) = EDA.Return tt
  /\ EDA.stdout (snd (EDA.getAutomaticStatisticalEDA Sample.nothing_installed s))
     = [EDA.sweetviz_missing;
        EDA.sweetviz_failed +:+ "No module named 'sweetviz'"]
  /\ fst (EDA.getAutomaticGraphicalEDA Sample.nothing_installed s) = EDA.Return tt
  /\ EDA.stdout (snd (EDA.getAutomaticGraphicalEDA Sample.nothing_installed s))
     = [EDA.autoviz_missing;
        EDA.autoviz_failed +:+ "[Errno 2] No such file or directory: 'pip'"].
Proof.
  intros s.
  destruct (auto_eda_degrades Sample.nothing_installed s) as [Hsv Hav].
  rewrite (Hsv (Sample.missing "sweetviz") (Sample.missing "sweetviz")
             eq_refl eq_refl eq_refl eq_refl).
  rewrite (Hav (Sample.missing "autoviz")
             (Py.Exn Py.FileNotFoundError
                "[Errno 2] No such file or directory: 'pip'")
             eq_refl eq_refl eq_refl eq_refl).
  repeat split.
Defined.

(* ===================================================================== *)
(** ** Numeric and categorical columns *)
(* ===================================================================== *)

Section ColumnClasses.

Import Pandas.

Lemma NoDup_map_inj_on {A B} (f : A -> B) (l : list A) x y :
  NoDup (map f l) -> x ∈ l -> y ∈ l -> f x = f y -> x = y.
Proof.
  induction l as [|a l IH]; intros Hnd Hx Hy Hxy; [by inversion Hx|].
  cbn [map] in Hnd. apply NoDup_cons in Hnd as [Ha Hl].
  apply elem_of_cons in Hx as [->|Hx]; apply elem_of_cons in Hy as [->|Hy].
  - done.
  - exfalso. apply Ha. rewrite Hxy.
    apply list_elem_of_In, in_map, list_elem_of_In, Hy.
  - exfalso. apply Ha. rewrite <- Hxy.
    apply list_elem_of_In, in_map, list_elem_of_In, Hx.
  - by apply IH.
Qed.

(** A label is selected exactly when a column of a listed dtype carries it. *)
Lemma selected_label (include : list Dtype) (df : DataFrame) l :
  l ∈ labels (select_dtypes include df) <->
  exists c, c ∈ columns df /\ name c = l /\ dtype c ∈ include.
Proof.
  unfold labels, select_dtypes; cbn [columns].
  rewrite list_elem_of_In, in_map_iff. split.
  - intros (c & Hn & Hc). apply list_elem_of_In, list_elem_of_filter in Hc.
    exists c. tauto.
  - intros (c & Hc & Hn & Hd). exists c. split; [done|].
    apply list_elem_of_In, list_elem_of_filter. done.
Qed.

End ColumnClasses.

(** C3, as amended. Every column whose dtype is float64, int64, object or
    category is listed by [get_numeric_columns()] or by
    [get_categorical_columns()], and no column is listed by both: a label
    is in both results only when two columns of different dtypes carry it,
    so under distinct labels the two results share nothing. *)
Theorem column_classes (s : EDA.state) :
  let df := EDA.dataset s in
  exists num cat,
    EDA.get_numeric_columns s = (EDA.Return num, s)
    /\ EDA.get_categorical_columns s = (EDA.Return cat, s)
    /\ (forall c, c ∈ Pandas.columns df ->
          Pandas.dtype c ∈ [Pandas.float64; Pandas.int64;
                            Pandas.object_; Pandas.category] ->
          Pandas.name c ∈ num \/ Pandas.name c ∈ cat)
    /\ (forall l, l ∈ num -> l ∈ cat ->
          exists c1 c2, c1 ∈ Pandas.columns df /\ c2 ∈ Pandas.columns df
            /\ Pandas.name c1 = l /\ Pandas.name c2 = l
            /\ Pandas.dtype c1 <> Pandas.dtype c2)
    /\ (NoDup (Pandas.labels df) -> forall l, l ∈ num -> l ∉ cat).
Proof.
  intros df. do 2 eexists. split; [reflexivity|]. split; [reflexivity|].
  assert (forall l,
    l ∈ Pandas.labels (Pandas.select_dtypes [Pandas.float64; Pandas.int64] df) ->
    l ∈ Pandas.labels (Pandas.select_dtypes [Pandas.object_; Pandas.category] df) ->
    exists c1 c2, c1 ∈ Pandas.columns df /\ c2 ∈ Pandas.columns df
      /\ Pandas.name c1 = l /\ Pandas.name c2 = l
      /\ Pandas.dtype c1 <> Pandas.dtype c2) as Hboth.
  { intros l [c1 (H1 & Hn1 & Hd1)]%selected_label
             [c2 (H2 & Hn2 & Hd2)]%selected_label.
    exists c1, c2. repeat split; try done.
    rewrite !elem_of_cons in Hd1, Hd2.
    destruct Hd1 as [Hd1|[Hd1|Hd1]], Hd2 as [Hd2|[Hd2|Hd2]];
      try (by inversion Hd1); try (by inversion Hd2); congruence. }
  split; [|split; [exact Hboth|]].
  - intros c Hc Hd. rewrite !selected_label.
    rewrite !elem_of_cons in Hd.
    destruct Hd as [Hd|[Hd|[Hd|[Hd|Hd]]]];
      [left|left|right|right|by inversion Hd];
      exists c; rewrite Hd; repeat split; try done;
      repeat (first [by apply list_elem_of_here | apply list_elem_of_further]).
  - intros Hnd l Hnum Hcat.
    destruct (Hboth l Hnum Hcat) as (c1 & c2 & H1 & H2 & Hn1 & Hn2 & Hne).
    apply Hne. f_equal.
    eapply NoDup_map_inj_on; [exact Hnd|done|done|congruence].
Qed.

Lemma column_classes_witness :
  exists num cat,
    EDA.get_numeric_columns (Sample.fresh Sample.frame_3x2)
      = (EDA.Return num, Sample.fresh Sample.frame_3x2)
    /\ EDA.get_categorical_columns (Sample.fresh Sample.frame_3x2)
      = (EDA.Return cat, Sample.fresh Sample.frame_3x2)
    /\ ("a"%string ∈ num \/ "a"%string ∈ cat)
    /\ (forall l, l ∈ num -> l ∉ cat).
Proof.
  destruct (column_classes (Sample.fresh Sample.frame_3x2))
    as (num & cat & Hnum & Hcat & Hcover & _ & Hdisj).
  exists num, cat. split; [exact Hnum|]. split; [exact Hcat|]. split.
  - apply (Hcover {| Pandas.name := "a"; Pandas.dtype := Pandas.int64;
                     Pandas.values := [Pandas.SInt 1; Pandas.SInt 2; Pandas.SInt 2] |}).
    + apply elem_of_cons. by left.
    + apply elem_of_cons. right. apply elem_of_cons. by left.
  - apply Hdisj. by apply (bool_decide_unpack _).
Defined.

(** C3, as stated, fails: in a frame whose columns are all of an integer
    or object dtype, the 32-bit integer column "a" is in neither result. *)
Lemma column_classes_counterexample :
  let df := Sample.frame_int32 in
  let s := Sample.fresh df in
  Forall (fun c => Spec.numeric (Pandas.dtype c) = true
                   \/ Spec.categorical (Pandas.dtype c) = true)
         (Pandas.columns df)
  /\ exists num cat,
       EDA.get_numeric_columns s = (EDA.Return num, s)
       /\ EDA.get_categorical_columns s = (EDA.Return cat, s)
       /\ ~ (forall c, c ∈ Pandas.columns df ->
               Pandas.name c ∈ num \/ Pandas.name c ∈ cat).
Proof.
  cbv zeta. split.
  - unfold Sample.frame_int32; cbn [Pandas.columns].
    repeat (apply Forall_cons; split); [left|right|apply Forall_nil];
      reflexivity.
  - exists [], ["b"%string].
    split; [reflexivity|]. split; [reflexivity|].
    intros H.
    destruct (H {| Pandas.name := "a"; Pandas.dtype := Pandas.int32;
                   Pandas.values := [Pandas.SInt 1; Pandas.SInt 2; Pandas.SInt 2] |})
      as [Ha|Ha].
    + apply elem_of_cons. by left.
    + by apply elem_of_nil in Ha.
    + apply list_elem_of_singleton in Ha. discriminate Ha.
Qed.

(* ===================================================================== *)
(** ** The correlation matrix *)
(* ===================================================================== *)

Section Correlation.

Import Pandas.

Lemma first_error_in checks e :
  first_error checks = Some e -> Some e ∈ checks.
Proof.
  induction checks as [|[e'|] rest IH]; cbn; intros H; [done| |].
  - simplify_eq. apply elem_of_cons. by left.
  - apply elem_of_cons. right. by apply IH.
Qed.

Lemma first_error_hit checks e :
  Some e ∈ checks -> is_Some (first_error checks).
Proof.
  induction checks as [|[e'|] rest IH]; intros H; cbn.
  - by inversion H.
  - by eexists.
  - apply IH. apply elem_of_cons in H as [H|H]; [done|done].
Qed.

Lemma cell_to_float_class v e :
  cell_to_float v = Some e -> Py.cls e = Py.ValueError.
Proof.
  destruct v; cbn; try done. case_match; [done|]. by intros [= <-].
Qed.

Lemma cells_to_float_class vs e :
  cells_to_float vs = Some e -> Py.cls e = Py.ValueError.
Proof.
  intros H%first_error_in.
  apply list_elem_of_In, in_map_iff in H as (v & Hv & _).
  by eapply cell_to_float_class.
Qed.

Lemma corr_error_class b df e :
  corr b df = inl e -> Py.cls e = Py.ValueError.
Proof.
  unfold corr. case_match eqn:H; [|done]. intros [= <-].
  apply first_error_in, list_elem_of_In, in_map_iff in H as (c & Hc & _).
  by eapply cells_to_float_class.
Qed.

Lemma corr_rejects_text df c v :
  c ∈ columns df -> SStr v ∈ values c -> Py.float_accepts v = false ->
  exists e, corr false df = inl e.
Proof.
  intros Hc Hv Hrej. unfold corr.
  assert (is_Some (cells_to_float (values c))) as [e He].
  { eapply first_error_hit.
    apply list_elem_of_In, in_map_iff. exists (SStr v).
    split; [|by apply list_elem_of_In]. cbn. by rewrite Hrej. }
  destruct (first_error_hit
              (map (fun c => cells_to_float (values c)) (columns df)) e)
    as [e' He'].
  { apply list_elem_of_In, in_map_iff. exists c.
    split; [done|by apply list_elem_of_In]. }
  rewrite He'. by eexists.
Qed.

End Correlation.


(** C6 fails on the code. With a column that holds a text value [float]
    does not accept, [getCorrelationMatrix()] raises a ValueError out of
    [self.dataset.corr()] and draws nothing: the frame is converted whole,
    not its numeric columns only. *)
Theorem correlation_fails_on_text (s : EDA.state) (c : Pandas.Series)
    (v : string) :
  c ∈ Pandas.columns (EDA.dataset s) ->
  Pandas.SStr v ∈ Pandas.values c ->
  Py.float_accepts v = false ->
  exists msg,
    EDA.getCorrelationMatrix s = (EDA.Raise (Py.Exn Py.ValueError msg), s).
Proof.
  intros Hc Hv Hrej.
  destruct (corr_rejects_text _ _ _ Hc Hv Hrej) as [e He].
  pose proof (corr_error_class _ _ _ He) as Hcls.
  exists (Py.str e). unfold EDA.getCorrelationMatrix.
  cbv [mbind mret EDA.M_bind EDA.M_ret EDA.self_dataset].
  rewrite He. destruct e as [cl msg]; cbn in *. by subst.
Qed.

Lemma correlation_fails_on_text_witness :
  exists msg,
    EDA.getCorrelationMatrix (Sample.fresh Sample.frame_3x2)
    = (EDA.Raise (Py.Exn Py.ValueError msg), Sample.fresh Sample.frame_3x2).
Proof.
  apply (correlation_fails_on_text (Sample.fresh Sample.frame_3x2)
           {| Pandas.name := "b"; Pandas.dtype := Pandas.object_;
              Pandas.values := [Pandas.SStr "x"; Pandas.SStr "y"; Pandas.SStr "y"] |}
           "x"%string).
  - apply elem_of_cons. right. apply elem_of_cons. by left.
  - apply elem_of_cons. by left.
  - reflexivity.
Defined.

(* ===================================================================== *)
(** ** The chart grids *)
(* ===================================================================== *)

Section Charts.

Import EDA.

Lemma getBoxplots_grid :
  getBoxplots = chart_grid get_numeric_columns Pyplot.Box.
Proof. reflexivity. Qed.

Lemma getHistograms_grid nBins :
  getHistograms nBins =
  chart_grid get_numeric_columns (fun v => Pyplot.Hist v nBins).
Proof. reflexivity. Qed.

Lemma plot_bar_charts_grid :
  plot_bar_charts_categorical_columns =
  chart_grid get_categorical_columns Pyplot.Bar.
Proof. reflexivity. Qed.

Lemma get_numeric_columns_reads :
  reads (fun df => Pandas.labels
                     (Pandas.select_dtypes [Pandas.float64; Pandas.int64] df))
        get_numeric_columns.
Proof. by intros s. Qed.

Lemma get_categorical_columns_reads :
  reads (fun df => Pandas.labels
                     (Pandas.select_dtypes [Pandas.object_; Pandas.category] df))
        get_categorical_columns.
Proof. by intros s. Qed.

(** One to three columns: one row of subplots, which [subplots] hands
    back as a one-dimensional array, and the first [axs[i, j]] raises. *)
Lemma chart_grid_one_row f select kind s :
  reads f select ->
  1 <= length (f (dataset s)) <= 3 ->
  chart_grid select kind s =
    (Raise (Py.Exn Py.IndexError
       "too many indices for array: array is 1-dimensional, but 2 were indexed"),
     with_figures (blank_figure 1 :: figures s) s).
Proof.
  intros Hsel Hlen. unfold chart_grid.
  unfold mbind at 1, M_bind at 1. rewrite Hsel.
  assert (ceil_div (length (f (dataset s))) 3 = 1) as ->.
  { destruct (f (dataset s)) as [|a [|b [|c [|d l]]]];
      cbn in Hlen; try lia; reflexivity. }
  unfold mbind at 1, M_bind at 1.
  change (subplots 1 3 (12, 4 * 1) s) with
    (Return (Pyplot.Array1 3), with_figures (blank_figure 1 :: figures s) s).
  cbv beta iota.
  unfold mbind at 1, M_bind at 1. rewrite Hsel. cbn [dataset with_figures].
  destruct (f (dataset s)) as [|a l]; [cbn in Hlen; lia|].
  reflexivity.
Qed.

(** No column: a grid without rows, which [subplots] refuses once the
    (empty) figure exists. *)
Lemma chart_grid_no_column f select kind s :
  reads f select ->
  length (f (dataset s)) = 0 ->
  chart_grid select kind s =
    (Raise (Py.Exn Py.ValueError
              "Number of rows must be a positive integer, not 0"),
     with_figures ({| Pyplot.figsize := (12, 0); Pyplot.grid := [];
                      Pyplot.shown := false |} :: figures s) s).
Proof.
  intros Hsel Hlen. unfold chart_grid.
  unfold mbind at 1, M_bind at 1. by rewrite Hsel, Hlen.
Qed.

End Charts.

Section LayoutFacts.

Variables (kind : string -> Pyplot.chart) (variables : list string).

Lemma ceil_div_bounds n :
  n <= 3 * EDA.ceil_div n 3 < n + 3.
Proof.
  unfold EDA.ceil_div.
  pose proof (Nat.div_mod_eq n 3) as Hdm.
  pose proof (Nat.mod_upper_bound n 3 ltac:(lia)) as Hub.
  destruct (n mod 3 =? 0) eqn:Hz.
  - apply Nat.eqb_eq in Hz. lia.
  - apply Nat.eqb_neq in Hz. lia.
Qed.

Lemma length_filter_all {A} (P : A -> Prop) `{!forall x, Decision (P x)} l :
  Forall P l -> length (filter P l) = length l.
Proof.
  induction 1 as [|x l Hx _ IH]; [done|].
  rewrite filter_cons, decide_True by done. cbn. by rewrite IH.
Qed.

Lemma length_filter_none {A} (P : A -> Prop) `{!forall x, Decision (P x)} l :
  Forall (fun x => ~ P x) l -> length (filter P l) = 0.
Proof.
  induction 1 as [|x l Hx _ IH]; [done|].
  by rewrite filter_cons, decide_False by done.
Qed.

(** Row by row, the layout lists the subplots of positions 0, 1, 2, ... *)
Lemma concat_rows (g : nat -> Pyplot.axes) n : forall i0,
  concat (map (fun i => map (fun j => g (3 * i + j)) (seq 0 3)) (seq i0 n))
  = map g (seq (3 * i0) (3 * n)).
Proof.
  induction n as [|n IH]; intros i0.
  - by rewrite Nat.mul_0_r.
  - replace (3 * S n) with (3 + 3 * n) by lia.
    rewrite seq_app, map_app. cbn [seq map concat]. rewrite IH.
    replace (3 * i0 + 0) with (3 * i0) by lia.
    replace (3 * i0 + 1) with (S (3 * i0)) by lia.
    replace (3 * i0 + 2) with (S (S (3 * i0))) by lia.
    replace (3 * S i0) with (3 * i0 + 3) by lia.
    reflexivity.
Qed.

Lemma layout_cells :
  concat (Spec.layout kind variables)
  = map (Spec.subplot_for kind variables)
        (seq 0 (3 * EDA.ceil_div (length variables) 3)).
Proof. unfold Spec.layout, Spec.layout_row. by rewrite concat_rows. Qed.

Lemma layout_shape :
  length (Spec.layout kind variables) = EDA.ceil_div (length variables) 3
  /\ Forall (fun row => length row = 3) (Spec.layout kind variables).
Proof.
  unfold Spec.layout. split.
  - by rewrite length_map, length_seq.
  - apply Forall_forall. intros row Hrow.
    apply list_elem_of_In, in_map_iff in Hrow as (i & <- & _). done.
Qed.


Lemma subplot_populated k :
  is_Some (Pyplot.drawn (Spec.subplot_for kind variables k))
  <-> k < length variables.
Proof.
  unfold Spec.subplot_for. split.
  - destruct (variables !! k) eqn:Hk; cbn.
    + intros _. by eapply lookup_lt_Some.
    + by intros [? ?].
  - intros Hk. destruct (lookup_lt_is_Some_2 variables k Hk) as [v ->]. by eexists.
Qed.

Lemma subplot_hidden k :
  Pyplot.axis_on (Spec.subplot_for kind variables k) = false
  <-> length variables <= k.
Proof.
  unfold Spec.subplot_for. split.
  - destruct (variables !! k) eqn:Hk; cbn; [done|].
    intros _. by apply lookup_ge_None.
  - intros Hk. by rewrite lookup_ge_None_2.
Qed.

(** Exactly N subplots are populated and the other 3 * ceil(N/3) - N
    are hidden. *)
Lemma layout_counts :
  Spec.populated (Spec.layout kind variables) = length variables
  /\ Spec.hidden (Spec.layout kind variables)
     = 3 * EDA.ceil_div (length variables) 3 - length variables.
Proof.
  unfold Spec.populated, Spec.hidden. rewrite layout_cells.
  pose proof (ceil_div_bounds (length variables)) as HR.
  set (N := length variables) in *.
  set (M := 3 * EDA.ceil_div N 3) in *.
  replace M with (N + (M - N)) at 1 2 by lia.
  rewrite seq_app, map_app, !filter_app, !length_app. split.
  - rewrite length_filter_all, length_filter_none.
    + rewrite length_map, length_seq. lia.
    + apply Forall_forall. intros a Ha.
      apply list_elem_of_In, in_map_iff in Ha as (k & <- & Hk).
      apply in_seq in Hk. rewrite subplot_populated. fold N. lia.
    + apply Forall_forall. intros a Ha.
      apply list_elem_of_In, in_map_iff in Ha as (k & <- & Hk).
      apply in_seq in Hk. apply subplot_populated. fold N. lia.
  - rewrite length_filter_none, length_filter_all.
    + rewrite length_map, length_seq. lia.
    + apply Forall_forall. intros a Ha.
      apply list_elem_of_In, in_map_iff in Ha as (k & <- & Hk).
      apply in_seq in Hk. apply subplot_hidden. fold N. lia.
    + apply Forall_forall. intros a Ha.
      apply list_elem_of_In, in_map_iff in Ha as (k & <- & Hk).
      apply in_seq in Hk. rewrite subplot_hidden. fold N. lia.
Qed.

End LayoutFacts.

Section Layout.
Import EDA.

Variables (kind : string -> Pyplot.chart) (variables : list string).
Variables (s : state) (older : list Pyplot.figure) (fs : nat * nat).

#[local] Abbreviation drawing := (EDA.drawing s older fs).
#[local] Abbreviation layout_row := (Spec.layout_row kind variables).
#[local] Abbreviation blank_row := (replicate 3 Pyplot.blank).

Lemma on_axes_run f i j l1 row l2 :
  length l1 = i ->
  on_axes f (i, j) (drawing (l1 ++ row :: l2))
  = (Return tt, drawing (l1 ++ alter f j row :: l2)).
Proof.
  intros <-. unfold on_axes, on_current, EDA.drawing.
  cbv [mbind mret M_bind M_ret get_figures set_figures with_figures figures
       Pyplot.figsize Pyplot.grid Pyplot.shown dataset description files stdout].
  do 3 f_equal. f_equal. unfold Pyplot.on_axes. cbn [fst snd].
  rewrite <- (Nat.add_0_r (length l1)) at 1.
  by rewrite alter_app_r.
Qed.

Lemma subplot_for_capped p :
  Spec.subplot_for kind variables (min (length variables) p)
  = Spec.subplot_for kind variables p.
Proof.
  unfold Spec.subplot_for.
  destruct (decide (p < length variables)) as [Hlt|Hge].
  - by rewrite Nat.min_r by lia.
  - rewrite Nat.min_l by lia.
    by rewrite !lookup_ge_None_2 by lia.
Qed.

(** One cell of the loop, visited with the index the loop has there. *)
Lemma chart_cell_run R i j p l1 row l2 :
  length l1 = i -> i < R -> j < 3 -> row !! j = Some Pyplot.blank ->
  chart_cell (Pyplot.Array2 R 3) variables kind i j
             (min (length variables) p) (drawing (l1 ++ row :: l2))
  = (Return (min (length variables) (S p)),
     drawing (l1 ++ <[j := Spec.subplot_for kind variables p]> row :: l2)).
Proof.
  intros Hi HiR Hj Hrow. unfold chart_cell.
  assert (Pyplot.getitem2 (Pyplot.Array2 R 3) i j = inr (i, j)) as Hax.
  { unfold Pyplot.getitem2. by rewrite decide_True by lia. }
  rewrite Hax.
  destruct (min (length variables) p <? length variables) eqn:Hk.
  - apply Nat.ltb_lt in Hk.
    assert (p < length variables) as Hp by lia.
    rewrite (Nat.min_r _ p) by lia.
    destruct (lookup_lt_is_Some_2 variables p Hp) as [v Hv].
    unfold item. rewrite Hv.
    cbv [mbind M_bind mret M_ret lift plot set_title].
    rewrite (on_axes_run _ _ _ _ _ _ Hi).
    rewrite (on_axes_run _ _ _ _ _ _ Hi).
    f_equal.
    + f_equal. lia.
    + do 3 f_equal. rewrite list_alter_alter_eq, list_insert_alter.
      apply list_alter_ext; [|done]. intros a Ha.
      rewrite Hrow in Ha. injection Ha as <-.
      unfold Spec.subplot_for. by rewrite Hv.
  - apply Nat.ltb_ge in Hk.
    assert (length variables <= p) as Hp by lia.
    cbv [mbind M_bind mret M_ret lift axis_off].
    rewrite (on_axes_run _ _ _ _ _ _ Hi).
    f_equal.
    + f_equal. lia.
    + do 3 f_equal. rewrite list_insert_alter.
      apply list_alter_ext; [|done]. intros a Ha.
      rewrite Hrow in Ha. injection Ha as <-.
      unfold Spec.subplot_for. by rewrite lookup_ge_None_2 by lia.
Qed.

Lemma for_each_cons {A B} (x : B) xs (body : B -> A -> M A) acc st :
  for_each (x :: xs) body acc st
  = match body x acc st with
    | (Return a, st') => for_each xs body a st'
    | (Raise e, st') => (Raise e, st')
    end.
Proof. reflexivity. Qed.

(** One row of the loop. *)
Lemma chart_row_run R i l1 l2 :
  length l1 = i -> i < R ->
  for_each (seq 0 3) (chart_cell (Pyplot.Array2 R 3) variables kind i)
           (min (length variables) (3 * i))
           (drawing (l1 ++ blank_row :: l2))
  = (Return (min (length variables) (3 * S i)),
     drawing (l1 ++ layout_row i :: l2)).
Proof.
  intros Hi HiR. cbn [seq for_each].
  cbv [mbind M_bind].
  rewrite (chart_cell_run R i 0 (3 * i) _ _ _ Hi HiR) by (done || lia).
  rewrite (chart_cell_run R i 1 (S (3 * i)) _ _ _ Hi HiR) by (done || lia).
  rewrite (chart_cell_run R i 2 (S (S (3 * i))) _ _ _ Hi HiR) by (done || lia).
  unfold mret, M_ret, Spec.layout_row. cbn [seq map replicate].
  replace (3 * i + 0) with (3 * i) by lia.
  replace (3 * i + 1) with (S (3 * i)) by lia.
  replace (3 * i + 2) with (S (S (3 * i))) by lia.
  replace (3 * S i) with (S (S (S (3 * i)))) by lia.
  reflexivity.
Qed.

(** The rows from [i0] on, over a grid whose rows before [i0] are done. *)
Lemma chart_rows_run R n : forall i0 done,
  length done = i0 -> i0 + n = R ->
  for_each (seq i0 n)
    (fun i variable_index =>
       for_each (seq 0 3) (chart_cell (Pyplot.Array2 R 3) variables kind i)
                variable_index)
    (min (length variables) (3 * i0))
    (drawing (done ++ replicate n blank_row))
  = (Return (min (length variables) (3 * (i0 + n))),
     drawing (done ++ map layout_row (seq i0 n))).
Proof.
  induction n as [|n IH]; intros i0 done Hlen HR.
  - cbn [seq for_each replicate map]. by rewrite Nat.add_0_r.
  - change (seq i0 (S n)) with (i0 :: seq (S i0) n).
    change (replicate (S n) blank_row) with (blank_row :: replicate n blank_row).
    rewrite for_each_cons. cbv beta. cbn [map].
    rewrite (chart_row_run R i0 done (replicate n blank_row) Hlen) by lia.
    rewrite (cons_middle (layout_row i0)), app_assoc.
    rewrite (IH (S i0) (done ++ [layout_row i0])).
    + rewrite <- app_assoc. cbn [app]. do 3 f_equal. lia.
    + rewrite length_app. cbn. lia.
    + lia.
Qed.

End Layout.

Section LayoutTheorem.
Import EDA.

(** More than three columns: the loop completes and leaves the grid. *)
Lemma chart_grid_layout f select kind s :
  reads f select ->
  3 < length (f (dataset s)) ->
  chart_grid select kind s =
    (Return tt,
     with_figures
       ({| Pyplot.figsize := (12, 4 * ceil_div (length (f (dataset s))) 3);
           Pyplot.grid := Spec.layout kind (f (dataset s));
           Pyplot.shown := true |} :: figures s) s).
Proof.
  intros Hsel Hlen. unfold chart_grid.
  unfold mbind at 1, M_bind at 1. rewrite Hsel.
  set (vs := f (dataset s)) in *.
  pose proof (ceil_div_bounds (length vs)) as HR.
  set (R := ceil_div (length vs) 3) in *.
  assert (subplots R 3 (12, 4 * R) s
          = (Return (Pyplot.Array2 R 3), with_figures (blank_figure R :: figures s) s))
    as Hsub.
  { unfold subplots.
    rewrite (decide_False (P := R = 0)) by lia.
    rewrite (decide_False (P := 3 = 0)) by lia.
    unfold Pyplot.squeeze. rewrite !decide_False by lia. reflexivity. }
  unfold mbind at 1, M_bind at 1. rewrite Hsub.
  unfold mbind at 1, M_bind at 1. rewrite Hsel.
  change (f (dataset (with_figures (blank_figure R :: figures s) s))) with vs.
  unfold mbind at 1, M_bind at 1.
  pose proof (chart_rows_run kind vs s (figures s) (12, 4 * R) R R 0 [] eq_refl
                ltac:(lia)) as Hloop.
  cbn [app] in Hloop. rewrite Nat.mul_0_r, Nat.min_0_r in Hloop.
  unfold EDA.drawing in Hloop.
  unfold blank_figure, Pyplot.new_grid. rewrite Hloop.
  reflexivity.
Qed.

End LayoutTheorem.

(** What does hold of the layout: with more than three eligible columns
    each charting method returns, having shown one new figure whose grid
    has ceil(N/3) rows of 3 subplots, the first N of them (row by row)
    populated with the columns in order and the others hidden. *)
Lemma charts_complete_beyond_three_columns (s : EDA.state) (nBins : Z) :
  let numeric := Pandas.labels
    (Pandas.select_dtypes [Pandas.float64; Pandas.int64] (EDA.dataset s)) in
  let categorical := Pandas.labels
    (Pandas.select_dtypes [Pandas.object_; Pandas.category] (EDA.dataset s)) in
  let done kind vs :=
    (EDA.Return tt,
     EDA.with_figures
       ({| Pyplot.figsize := (12, 4 * EDA.ceil_div (length vs) 3);
           Pyplot.grid := Spec.layout kind vs;
           Pyplot.shown := true |} :: EDA.figures s) s) in
  (3 < length numeric ->
     EDA.getBoxplots s = done Pyplot.Box numeric
     /\ EDA.getHistograms nBins s
        = done (fun v => Pyplot.Hist v nBins) numeric)
  /\ (3 < length categorical ->
     EDA.plot_bar_charts_categorical_columns s = done Pyplot.Bar categorical)
  /\ (forall kind vs,
        length (Spec.layout kind vs) = EDA.ceil_div (length vs) 3
        /\ Forall (fun row => length row = 3) (Spec.layout kind vs)
        /\ Spec.populated (Spec.layout kind vs) = length vs
        /\ Spec.hidden (Spec.layout kind vs)
           = 3 * EDA.ceil_div (length vs) 3 - length vs).
Proof.
  intros numeric categorical done.
  rewrite getBoxplots_grid, getHistograms_grid, plot_bar_charts_grid.
  repeat split.
  - by apply (chart_grid_layout _ _ _ _ get_numeric_columns_reads).
  - by apply (chart_grid_layout _ _ _ _ get_numeric_columns_reads).
  - by apply (chart_grid_layout _ _ _ _ get_categorical_columns_reads).
  - apply layout_shape.
  - apply layout_shape.
  - apply layout_counts.
  - apply layout_counts.
Qed.

(** C1 fails on the code. With one, two or three eligible columns each
    charting method raises an IndexError at its first [axs[i, j]], leaving
    a figure of three blank subplots, none populated and none hidden; with
    no eligible column it raises a ValueError when the grid is requested. *)
Theorem charts_fail_up_to_three_columns (s : EDA.state) (nBins : Z) :
  let numeric := Pandas.labels
    (Pandas.select_dtypes [Pandas.float64; Pandas.int64] (EDA.dataset s)) in
  let categorical := Pandas.labels
    (Pandas.select_dtypes [Pandas.object_; Pandas.category] (EDA.dataset s)) in
  let stopped :=
    EDA.with_figures (EDA.blank_figure 1 :: EDA.figures s) s in
  (1 <= length numeric <= 3 ->
     exists msg,
       EDA.getBoxplots s = (EDA.Raise (Py.Exn Py.IndexError msg), stopped)
       /\ EDA.getHistograms nBins s
          = (EDA.Raise (Py.Exn Py.IndexError msg), stopped))
  /\ (1 <= length categorical <= 3 ->
     exists msg,
       EDA.plot_bar_charts_categorical_columns s
       = (EDA.Raise (Py.Exn Py.IndexError msg), stopped))
  /\ (length numeric = 0 ->
     exists msg s',
       EDA.getBoxplots s = (EDA.Raise (Py.Exn Py.ValueError msg), s')
       /\ EDA.getHistograms nBins s
          = (EDA.Raise (Py.Exn Py.ValueError msg), s'))
  /\ (length categorical = 0 ->
     exists msg s',
       EDA.plot_bar_charts_categorical_columns s
       = (EDA.Raise (Py.Exn Py.ValueError msg), s')).
Proof.
  intros numeric categorical stopped.
  rewrite getBoxplots_grid, getHistograms_grid, plot_bar_charts_grid.
  repeat split.
  - intros HN. eexists. split;
      apply (chart_grid_one_row _ _ _ _ get_numeric_columns_reads HN).
  - intros HK. eexists.
    apply (chart_grid_one_row _ _ _ _ get_categorical_columns_reads HK).
  - intros HN. do 2 eexists. split;
      apply (chart_grid_no_column _ _ _ _ get_numeric_columns_reads HN).
  - intros HK. do 2 eexists.
    apply (chart_grid_no_column _ _ _ _ get_categorical_columns_reads HK).
Qed.

Lemma charts_fail_up_to_three_columns_witness :
  let s := Sample.fresh Sample.frame_one_numeric in
  exists msg,
    EDA.getBoxplots s
    = (EDA.Raise (Py.Exn Py.IndexError msg),
       EDA.with_figures [EDA.blank_figure 1] s)
    /\ EDA.getHistograms 10 s
    = (EDA.Raise (Py.Exn Py.IndexError msg),
       EDA.with_figures [EDA.blank_figure 1] s).
Proof.
  intros s.
  apply (proj1 (charts_fail_up_to_three_columns s 10)).
  vm_compute. lia.
Defined.

(* ===================================================================== *)
(** ** Labels across the queries *)
(* ===================================================================== *)

Section Labels.

Import Pandas.

Lemma labels_select_sublist include (df : DataFrame) :
  labels (select_dtypes include df) `sublist_of` labels df.
Proof.
  unfold labels, select_dtypes; cbn [columns].
  induction (columns df) as [|c cs IH]; [done|].
  rewrite filter_cons. case_decide; cbn [map].
  - by apply sublist_skip.
  - by apply sublist_cons.
Qed.


End Labels.

(** X1. [getColumns()], [getTypes()] and [getNulls()] carry the same labels
    in the same order, one per column; [get_numeric_columns()] and
    [get_categorical_columns()] list some of those labels, in that
    order. *)
Theorem labels_agree (s : EDA.state) :
  exists cols types nulls num cat,
    EDA.getColumns s = (EDA.Return cols, s)
    /\ EDA.getTypes s = (EDA.Return types, s)
    /\ EDA.getNulls s = (EDA.Return nulls, s)
    /\ EDA.get_numeric_columns s = (EDA.Return num, s)
    /\ EDA.get_categorical_columns s = (EDA.Return cat, s)
    /\ length cols = length (Pandas.columns (EDA.dataset s))
    /\ map fst types = cols
    /\ map fst nulls = cols
    /\ num `sublist_of` cols
    /\ cat `sublist_of` cols.
Proof.
  do 5 eexists. do 5 (split; [reflexivity|]).
  split; [|split; [|split; [|split]]].
  - unfold Pandas.labels. by rewrite length_map.
  - unfold Pandas.dtypes, Pandas.labels. rewrite map_map. by apply map_ext.
  - unfold Pandas.sum, Pandas.isnull, Pandas.labels. rewrite !map_map.
    by apply map_ext.
  - apply labels_select_sublist.
  - apply labels_select_sublist.
Qed.


(* ===================================================================== *)
(** ** The report of countUniques *)
(* ===================================================================== *)

Section CountUniques.

Import EDA.



Variable rt : runtime.



End CountUniques.



(* ===================================================================== *)
(** ** The footprint of each method *)
(* ===================================================================== *)

Section Footprint.

Import EDA.

Variable rt : runtime.




End Footprint.



(* ===================================================================== *)
(** ** The description across a session *)
(* ===================================================================== *)

(** X5. The last [setDescription] wins: after any calls, then
    [setDescription(x)], then any calls other than [setDescription],
    [getDescription()] returns [x], whatever descriptions were set
    before; and the dataset is still the one bound at construction. *)
Theorem description_last_write_wins (rt : EDA.runtime) (s : EDA.state)
    (before after : list EDA.method) (x : string) :
  Forall (fun m => EDA.is_setDescription m = false) after ->
  let s' := EDA.session rt (before ++ EDA.SetDescription x :: after) s in
  EDA.getDescription s' = (EDA.Return x, s')
  /\ EDA.dataset s' = EDA.dataset s.
Proof.
  intros Hafter s'. split; [|apply session_keeps_dataset].
  unfold EDA.getDescription. subst s'.
  assert (forall ms1 ms2 s0,
            EDA.session rt (ms1 ++ ms2) s0
            = EDA.session rt ms2 (EDA.session rt ms1 s0)) as Happ.
  { induction ms1 as [|m ms1 IH]; intros ms2 s0; cbn; [done|]. apply IH. }
  rewrite Happ. cbn [EDA.session EDA.invoke].
  by rewrite (session_keeps_description rt after _ Hafter).
Qed.

Lemma description_last_write_wins_witness :
  let s' := EDA.session Sample.all_installed
              [EDA.SetDescription "first"; EDA.GetBoxplots;
               EDA.SetDescription "second"; EDA.GetNulls;
               EDA.GetAutomaticGraphicalEDA]
              (Sample.fresh Sample.frame_3x2) in
  EDA.getDescription s' = (EDA.Return "second"%string, s')
  /\ EDA.dataset s' = Sample.frame_3x2.
Proof.
  apply (description_last_write_wins Sample.all_installed
           (Sample.fresh Sample.frame_3x2)
           [EDA.SetDescription "first"; EDA.GetBoxplots]
           [EDA.GetNulls; EDA.GetAutomaticGraphicalEDA] "second"%string).
  repeat constructor.
Defined.


(* ===================================================================== *)
(** ** The head of a frame, and the counts of missing values *)
(* ===================================================================== *)

Section HeadAndNulls.

Import Pandas.

Lemma head_head n (df : DataFrame) : head n (head n df) = head n df.
Proof.
  unfold head; cbn [index columns]. f_equal.
  - by rewrite take_take, Nat.min_id.
  - rewrite map_map. apply map_ext. intros c; cbn.
    by rewrite take_take, Nat.min_id.
Qed.

Lemma missing_in_column_le (c : Series) :
  Spec.missing_in_column c <= length (values c).
Proof. apply length_filter. Qed.

Lemma missing_in_column_take n (c : Series) :
  Spec.missing_in_column
    {| name := name c; dtype := dtype c; values := take n (values c) |}
  <= Spec.missing_in_column c.
Proof.
  unfold Spec.missing_in_column; cbn [values].
  rewrite <- (take_drop n (values c)) at 2.
  rewrite filter_app, length_app. lia.
Qed.

Lemma sum_list_le_each (f : Series -> nat) (bound : nat) (cs : list Series) :
  Forall (fun c => f c <= bound) cs ->
  sum_list (map f cs) <= bound * length cs.
Proof.
  induction 1 as [|c cs Hc _ IH]; cbn [map sum_list_with length]; [lia|].
  unfold id at 1. lia.
Qed.

End HeadAndNulls.

(** X6. The frame [getHead()] returns can be inspected in turn: an
    inspector bound to it reports the shape (min(5, R), C) and the same
    columns and types as the original, its own [getHead()] returns it
    unchanged, and none of its columns has more missing values than the
    column it was cut from. *)
Theorem getHead_inspected (s : EDA.state) fs out figs :
  let df := EDA.dataset s in
  exists h,
    EDA.getHead s = (EDA.Return h, s)
    /\ (let t := EDA.init h fs out figs in
        EDA.getShape t
          = (EDA.Return (min 5 (length (Pandas.index df)),
                         length (Pandas.columns df)), t)
        /\ EDA.getColumns t = (EDA.Return (Pandas.labels df), t)
        /\ EDA.getTypes t = (EDA.Return (Pandas.dtypes df), t)
        /\ EDA.getHead t = (EDA.Return h, t)
        /\ exists nulls_h nulls,
             EDA.getNulls t = (EDA.Return nulls_h, t)
             /\ EDA.getNulls s = (EDA.Return nulls, s)
             /\ Forall2 (fun n m => snd n <= snd m) nulls_h nulls).
Proof.
  intros df. exists (Pandas.head 5 df). split; [reflexivity|].
  cbv zeta. split; [|split; [|split; [|split]]];
    [| | | |do 2 eexists; do 2 (split; [reflexivity|])].
  - cbv [EDA.getShape EDA.self_dataset mbind mret EDA.M_bind EDA.M_ret
         EDA.init EDA.dataset Pandas.shape].
    unfold Pandas.head; cbn [Pandas.index Pandas.columns].
    by rewrite length_take, length_map.
  - cbv [EDA.getColumns EDA.self_dataset mbind mret EDA.M_bind EDA.M_ret
         EDA.init EDA.dataset].
    do 2 f_equal. unfold Pandas.labels, Pandas.head; cbn [Pandas.columns].
    rewrite map_map. by apply map_ext.
  - cbv [EDA.getTypes EDA.self_dataset mbind mret EDA.M_bind EDA.M_ret
         EDA.init EDA.dataset].
    do 2 f_equal. unfold Pandas.dtypes, Pandas.head; cbn [Pandas.columns].
    rewrite map_map. by apply map_ext.
  - cbv [EDA.getHead EDA.self_dataset mbind mret EDA.M_bind EDA.M_ret
         EDA.init EDA.dataset].
    by rewrite head_head.
  - cbn [EDA.init EDA.dataset].
    unfold Pandas.sum, Pandas.isnull, Pandas.head; cbn [Pandas.columns].
    rewrite !map_map. fold df.
    induction (Pandas.columns df) as [|c cs IH]; cbn [map]; constructor;
      [|exact IH].
    cbn [snd]. rewrite !sum_list_b2n_filter.
    apply (missing_in_column_take 5 c).
Qed.

(** X7. In a dataset whose columns all have R entries, no count of
    [getNulls()] exceeds R, the counts together do not exceed
    [getSize()], and a column's count is 0 exactly when none of its
    entries is missing. *)
Theorem getNulls_bounds (s : EDA.state) :
  Pandas.wf (EDA.dataset s) ->
  let df := EDA.dataset s in
  exists nulls size,
    EDA.getNulls s = (EDA.Return nulls, s)
    /\ EDA.getSize s = (EDA.Return size, s)
    /\ Forall (fun n => snd n <= length (Pandas.index df)) nulls
    /\ sum_list (map snd nulls) <= size
    /\ (forall i c, Pandas.columns df !! i = Some c ->
          (snd <$> nulls !! i = Some 0
           <-> Forall (fun v => Pandas.isna v = false) (Pandas.values c))).
Proof.
  intros Hwf df. subst df. do 2 eexists. do 2 (split; [reflexivity|]).
  assert (Forall (fun c => Spec.missing_in_column c
                           <= length (Pandas.index (EDA.dataset s)))
                 (Pandas.columns (EDA.dataset s))) as Hle.
  { eapply Forall_impl; [exact Hwf|]. intros c Hc; cbn in Hc.
    rewrite <- Hc. apply missing_in_column_le. }
  split; [|split].
  - unfold Pandas.sum, Pandas.isnull. rewrite map_map.
    apply Forall_map. eapply Forall_impl; [exact Hle|].
    intros c Hc; cbn. by rewrite sum_list_b2n_filter.
  - rewrite nulls_values. unfold Pandas.size, Pandas.shape.
    by apply sum_list_le_each.
  - intros i c Hi. rewrite (nulls_lookup _ _ _ Hi). cbn.
    unfold Spec.missing_in_column. split.
    + intros [= Hz]. apply length_zero_iff_nil in Hz.
      apply Forall_forall. intros v Hv.
      destruct (Pandas.isna v) eqn:Hna; [|done].
      assert (v ∈ filter (fun v => Pandas.isna v = true) (Pandas.values c)) as Hf
        by (by apply list_elem_of_filter).
      rewrite Hz in Hf. by apply elem_of_nil in Hf.
    + intros Hall. f_equal.
      apply (length_filter_none (fun v => Pandas.isna v = true)).
      eapply Forall_impl; [exact Hall|]. intros v Hv; cbn in Hv. congruence.
Qed.

Lemma getNulls_bounds_witness :
  exists nulls size,
    EDA.getNulls (Sample.fresh Sample.frame_with_gaps)
      = (EDA.Return nulls, Sample.fresh Sample.frame_with_gaps)
    /\ EDA.getSize (Sample.fresh Sample.frame_with_gaps)
      = (EDA.Return size, Sample.fresh Sample.frame_with_gaps)
    /\ Forall (fun n => snd n <= 3) nulls
    /\ sum_list (map snd nulls) <= size.
Proof.
  destruct (getNulls_bounds (Sample.fresh Sample.frame_with_gaps))
    as (nulls & size & Hn & Hs & Hle & Hsum & _).
  - repeat constructor.
  - exists nulls, size. repeat split; assumption.
Defined.

(* ===================================================================== *)
(** ** What a charting call leaves behind *)
(* ===================================================================== *)

Section ChartOutcome.

Import EDA.


End ChartOutcome.





(* ===================================================================== *)
(** ** The delegating methods beyond the degraded path *)
(* ===================================================================== *)

(** Runs a delegating method through its import block. *)
Ltac run_import :=
  unfold EDA.getAutomaticStatisticalEDA, EDA.getAutomaticGraphicalEDA,
         Spec.available, Spec.retry_error, Props.sweetviz_run,
         Props.autoviz_run, Props.finish in *;
  cbv [mbind mret EDA.M_bind EDA.M_ret EDA.try_except EDA.call EDA.raise
       EDA.print EDA.self_dataset EDA.write_file EDA.read_file].

(** X10. Not every failure is swallowed. When the first import raises
    something that is not an ImportError, both auto-EDA methods raise it
    to the caller at once: nothing is printed, no install is attempted,
    nothing is written. When the install-and-retry is interrupted by an
    exception outside the class Exception (a KeyboardInterrupt, say), it
    is raised to the caller after the notice alone has been printed. *)
Theorem auto_eda_propagates (rt : EDA.runtime) (s : EDA.state) :
  let noticed line :=
    {| EDA.dataset := EDA.dataset s; EDA.description := EDA.description s;
       EDA.files := EDA.files s; EDA.stdout := EDA.stdout s ++ [line];
       EDA.figures := EDA.figures s |} in
  (forall e1,
     EDA.first_import (EDA.sweetviz rt) = Some e1 ->
     Py.isinstance e1 Py.ImportError = false ->
     EDA.getAutomaticStatisticalEDA rt s = (EDA.Raise e1, s))
  /\ (forall e1,
     EDA.first_import (EDA.autoviz rt) = Some e1 ->
     Py.isinstance e1 Py.ImportError = false ->
     EDA.getAutomaticGraphicalEDA rt s = (EDA.Raise e1, s))
  /\ (forall e1 e,
     EDA.first_import (EDA.sweetviz rt) = Some e1 ->
     Py.isinstance e1 Py.ImportError = true ->
     Spec.retry_error (EDA.sweetviz rt) = Some e ->
     Py.isinstance e Py.Exception = false ->
     EDA.getAutomaticStatisticalEDA rt s
     = (EDA.Raise e, noticed EDA.sweetviz_missing))
  /\ (forall e1 e,
     EDA.first_import (EDA.autoviz rt) = Some e1 ->
     Py.isinstance e1 Py.ImportError = true ->
     Spec.retry_error (EDA.autoviz rt) = Some e ->
     Py.isinstance e Py.Exception = false ->
     EDA.getAutomaticGraphicalEDA rt s
     = (EDA.Raise e, noticed EDA.autoviz_missing)).
Proof.
  cbv zeta. repeat split.
  - intros e1 H1 HI. run_import. by rewrite H1, HI.
  - intros e1 H1 HI. run_import. by rewrite H1, HI.
  - intros e1 e H1 HI Hretry HE. run_import. rewrite H1, HI.
    destruct (EDA.pip_install (EDA.sweetviz rt)) as [e'|]; simplify_eq;
      by rewrite ?Hretry, HE.
  - intros e1 e H1 HI Hretry HE. run_import. rewrite H1, HI.
    destruct (EDA.pip_install (EDA.autoviz rt)) as [e'|]; simplify_eq;
      by rewrite ?Hretry, HE.
Qed.

Lemma auto_eda_propagates_witness :
  let s := Sample.fresh Sample.frame_3x2 in
  EDA.getAutomaticStatisticalEDA Props.broken_install s
  = (EDA.Raise (Py.Exn Py.AttributeError
                  "module 'numpy' has no attribute 'warnings'"), s)
  /\ fst (EDA.getAutomaticGraphicalEDA Props.broken_install s)
     = EDA.Raise (Py.Exn Py.KeyboardInterrupt "").
Proof.
  intros s.
  destruct (auto_eda_propagates Props.broken_install s) as (Hsv & _ & _ & Hav).
  split.
  - apply Hsv; reflexivity.
  - by rewrite (Hav (Sample.missing "autoviz") (Py.Exn Py.KeyboardInterrupt "")
                  eq_refl eq_refl eq_refl eq_refl).
Defined.

(** X11. Once Sweetviz is there (at the first import, or after the
    install, in which case the notice has been printed),
    [getAutomaticStatisticalEDA()] hands the dataset to the report
    generator and ends as the generator does: an exception of [analyze]
    or [show_notebook] reaches the caller unchanged, and nothing but the
    printed lines changes. *)
Theorem statistical_delegates (rt : EDA.runtime) (s : EDA.state) :
  Spec.available (EDA.sweetviz rt) = true ->
  EDA.getAutomaticStatisticalEDA rt s
  = (Props.finish (Props.sweetviz_run rt (EDA.dataset s)),
     {| EDA.dataset := EDA.dataset s; EDA.description := EDA.description s;
        EDA.files := EDA.files s;
        EDA.stdout := EDA.stdout s ++
          match EDA.first_import (EDA.sweetviz rt) with
          | Some _ => [EDA.sweetviz_missing]
          | None => []
          end;
        EDA.figures := EDA.figures s |}).
Proof.
  destruct s as [df d fs out figs]. run_import. intros Hav.
  repeat (case_match; simplify_eq; cbn in *; try done);
    by rewrite ?app_nil_r.
Qed.

Lemma statistical_delegates_witness :
  EDA.getAutomaticStatisticalEDA Sample.all_installed
    (Sample.fresh Sample.frame_3x2)
  = (EDA.Return tt, Sample.fresh Sample.frame_3x2).
Proof.
  exact (statistical_delegates Sample.all_installed
           (Sample.fresh Sample.frame_3x2) eq_refl).
Defined.



(* ===================================================================== *)
(** ** The heat map *)
(* ===================================================================== *)



(* ===================================================================== *)
(** ** A whole session *)
(* ===================================================================== *)

Section SessionEffects.

Import EDA.

Variable rt : runtime.





End SessionEffects.



(** X15. The export is overwritten, not accumulated: after a call of
    [getAutomaticGraphicalEDA()] that got its library and returned, a
    second call in the same environment returns as well and leaves the
    working directory exactly as the first call left it. *)
Theorem graphical_export_repeats (rt : EDA.runtime) (s : EDA.state) :
  Spec.available (EDA.autoviz rt) = true ->
  fst (EDA.getAutomaticGraphicalEDA rt s) = EDA.Return tt ->
  let s1 := snd (EDA.getAutomaticGraphicalEDA rt s) in
  fst (EDA.getAutomaticGraphicalEDA rt s1) = EDA.Return tt
  /\ EDA.files (snd (EDA.getAutomaticGraphicalEDA rt s1)) = EDA.files s1.
Proof.
  destruct s as [df d fs out figs]. run_import. intros Hav.
  unfold EDA.csv_filename.
  repeat (case_match; simplify_eq; cbn in *;
          rewrite ?lookup_insert_eq, ?insert_insert_eq in *; try done).
Qed.

Lemma graphical_export_repeats_witness :
  let s := Sample.fresh Sample.frame_3x2 in
  let s1 := snd (EDA.getAutomaticGraphicalEDA Sample.all_installed s) in
  EDA.files (snd (EDA.getAutomaticGraphicalEDA Sample.all_installed s1))
  = {["temp_dataset.csv"%string := Pandas.to_csv Sample.frame_3x2]}.
Proof.
  intros s s1.
  destruct (graphical_export_repeats Sample.all_installed s eq_refl eq_refl)
    as [_ Hsame].
  etrans; [exact Hsame|reflexivity].
Defined.
